(** * Catalog browser: query pipeline, item routes and stats cache

    A shallow embedding of the Express routes [routes/items.js] and
    [routes/stats.js] and of the client-side mirror in
    [state/DataContext.js], followed by the properties of the
    natural-language specification that were checked against them.

    Conventions of the embedding:
    - a JavaScript string is a [string] of bytes; [toLowerCase] folds the
      ASCII letters and [trim] strips the ASCII white space characters;
    - an integer (ids, page numbers, lengths, epoch milliseconds) is a [Z];
    - a price is the decimal number written in the file, compared exactly by
      the search and the sort; the statistics are computed twice: in IEEE 754
      doubles, as the program does ([StatsDouble]), for what the numbers are,
      and in exact rationals ([Stats]), for what the cache does with them;
    - an optional field or query parameter is an [option]
      ([None] is JavaScript's [undefined]);
    - a route handler is a function from the state of the backing file (and
      of the clock and the cache, for the stats routes) to a response. *)

From Stdlib Require Import ZArith QArith Qround List Bool Ascii String Lia.
From Stdlib Require Import Permutation DecimalString DecimalPos Sorted Floats.
Import ListNotations.

Open Scope string_scope.
Open Scope Z_scope.

(** ** JavaScript primitives used by the routes *)

Module JS.

(** White space removed by [String.prototype.trim] and skipped by
    [parseInt] (tab, line feed, vertical tab, form feed, carriage return,
    space). *)
Definition isWhiteSpace (c : ascii) : bool :=
  let n := nat_of_ascii c in
  (((9 <=? n) && (n <=? 13)) || (n =? 32))%nat.

Definition lowerChar (c : ascii) : ascii :=
  let n := nat_of_ascii c in
  if ((65 <=? n) && (n <=? 90))%nat then ascii_of_nat (n + 32) else c.

Fixpoint toLowerCase (s : string) : string :=
  match s with
  | EmptyString => EmptyString
  | String c r => String (lowerChar c) (toLowerCase r)
  end.

Fixpoint trimStart (s : string) : string :=
  match s with
  | EmptyString => EmptyString
  | String c r => if isWhiteSpace c then trimStart r else s
  end.

Fixpoint trimEnd (s : string) : string :=
  match s with
  | EmptyString => EmptyString
  | String c r =>
      match trimEnd r with
      | EmptyString => if isWhiteSpace c then EmptyString else String c EmptyString
      | r' => String c r'
      end
  end.

Definition trim (s : string) : string := trimEnd (trimStart s).

Fixpoint startsWith (s t : string) : bool :=
  match t, s with
  | EmptyString, _ => true
  | String _ _, EmptyString => false
  | String b t', String a s' => Ascii.eqb a b && startsWith s' t'
  end.

(** [s.includes(t)] *)
Fixpoint includes (s t : string) : bool :=
  startsWith s t ||
  match s with
  | EmptyString => false
  | String _ r => includes r t
  end.

(** A string is truthy when it is not empty. *)
Definition truthy (s : string) : bool := negb (String.eqb s "").

(** *** Numbers *)

(** [mant / 10^scale]: the decimal numbers a JSON file holds. *)
Record decimal : Type := Dec { mant : Z; scale : nat }.

Definition ofZ (z : Z) : decimal := Dec z 0.

Definition decToQ (d : decimal) : Q :=
  inject_Z (mant d) / inject_Z (10 ^ Z.of_nat (scale d)).

(** [a < b] on numbers, by cross multiplication. *)
Definition decLt (a b : decimal) : bool :=
  mant a * 10 ^ Z.of_nat (scale b) <? mant b * 10 ^ Z.of_nat (scale a).

Definition digitsOfN (n : N) : string := NilZero.string_of_uint (N.to_uint n).

(** [Number.prototype.toString] on an integer. *)
Definition intToString (z : Z) : string := NilZero.string_of_int (Z.to_int z).

(** Trailing zeros of the fraction are not printed: 25.50 is "25.5". *)
Fixpoint normalize (m : Z) (k : nat) : Z * nat :=
  match k with
  | O => (m, O)
  | S k' => if m mod 10 =? 0 then normalize (m / 10) k' else (m, k)
  end.

Definition dropFirst (s : string) : string :=
  match s with
  | EmptyString => EmptyString
  | String _ r => r
  end.

(** [Number.prototype.toString] on a decimal in the range printed
    without an exponent. *)
Definition numToString (d : decimal) : string :=
  let '(m, k) := normalize (mant d) (scale d) in
  match k with
  | O => intToString m
  | S _ =>
      let p := 10 ^ Z.of_nat k in
      let a := Z.abs m in
      (if m <? 0 then "-" else "") ++
      digitsOfN (Z.to_N (a / p)) ++ "." ++
      dropFirst (digitsOfN (Z.to_N (p + a mod p)))
  end.

(** *** parseInt *)

Definition digitValue (radix : Z) (c : ascii) : option Z :=
  let n := Z.of_nat (nat_of_ascii c) in
  let v :=
    if (48 <=? n) && (n <=? 57) then n - 48
    else if (97 <=? n) && (n <=? 122) then n - 87
    else if (65 <=? n) && (n <=? 90) then n - 55
    else 99 in
  if v <? radix then Some v else None.

(** The longest prefix of digits, read in the radix; [None] when the
    prefix is empty. *)
Fixpoint readDigits (radix : Z) (acc : option Z) (s : string) : option Z :=
  match s with
  | EmptyString => acc
  | String c r =>
      match digitValue radix c with
      | None => acc
      | Some v =>
          readDigits radix
            (Some (match acc with None => v | Some a => a * radix + v end)) r
      end
  end.

(** [parseInt(s)] without a radix argument; [None] is [NaN]. *)
Definition parseInt (s : string) : option Z :=
  let s1 := trimStart s in
  let '(sign, s2) :=
    match s1 with
    | String "-" r => (-1, r)
    | String "+" r => (1, r)
    | _ => (1, s1)
    end in
  let body :=
    match s2 with
    | String "0" (String "x" r) => readDigits 16 None r
    | String "0" (String "X" r) => readDigits 16 None r
    | _ => readDigits 10 None s2
    end in
  option_map (Z.mul sign) body.

(** [x || d] on the result of [parseInt]: [NaN] and [0] are falsy. *)
Definition orDefault (x : option Z) (d : Z) : Z :=
  match x with
  | None => d
  | Some 0 => d
  | Some v => v
  end.

(** [Math.ceil(a / b)] for an integer [a] and a non-zero integer [b]. *)
Definition ceilDiv (a b : Z) : Z := - ((- a) / b).

(** [Array.prototype.slice(start, end)] with integer arguments; a
    negative index counts from the end. *)
Definition slice {A : Type} (l : list A) (start stop : Z) : list A :=
  let len := Z.of_nat (List.length l) in
  let k := if start <? 0 then Z.max (len + start) 0 else Z.min start len in
  let e := if stop <? 0 then Z.max (len + stop) 0 else Z.min stop len in
  firstn (Z.to_nat (Z.max (e - k) 0)) (skipn (Z.to_nat k) l).

(** [Array.prototype.sort(cmp)]: the sort is stable; it is modelled as the
    insertion of each element, from left to right, after the elements it
    does not precede. The comparator is called with the element being
    placed first. *)
Fixpoint insert {A : Type} (cmp : A -> A -> Z) (x : A) (l : list A) : list A :=
  match l with
  | [] => [x]
  | y :: r => if cmp x y <? 0 then x :: y :: r else y :: insert cmp x r
  end.

Definition sort {A : Type} (cmp : A -> A -> Z) (l : list A) : list A :=
  fold_left (fun acc x => insert cmp x acc) l [].

End JS.

(** ** The backing file and the outcome of a handler *)

Module FS.

(** What [fs.readFile] followed by [JSON.parse] yields. *)
Inductive readResult (A : Type) : Type :=
| ENOENT                       (* the file is absent *)
| IOError (msg : string)       (* any other rejection of [readFile] *)
| SyntaxError (msg : string)   (* [JSON.parse] throws *)
| Parsed (content : A).

Arguments ENOENT {A}.
Arguments IOError {A} msg.
Arguments SyntaxError {A} msg.
Arguments Parsed {A} content.

(** [mtime] is what [fs.stat] reports ([None] when it rejects). *)
Record disk (A : Type) : Type := Disk { mtime : option Z; file : readResult A }.

Arguments Disk {A} mtime file.
Arguments mtime {A} d.
Arguments file {A} d.

End FS.

(** An error object handed to [next]: [status] is set by the handlers on a
    validation error and absent on an error raised by the file system. *)
Record error : Type := Error { status : option Z; message : string }.

Inductive result (A : Type) : Type :=
| Ok (a : A)
| Throw (e : error).

Arguments Ok {A} a.
Arguments Throw {A} e.

Definition bind {A B : Type} (r : result A) (k : A -> result B) : result B :=
  match r with
  | Ok a => k a
  | Throw e => Throw e
  end.

Notation "x <- r ;; k" := (bind r (fun x => k))
  (at level 61, r at next level, right associativity).

(** Modelled from the spec: the generic error handler of the application
    (the application file is not part of the sources; the test suite installs
    the same one). It answers with [err.status || 500]. *)
Definition httpStatus (e : error) : Z :=
  match status e with
  | Some s => if s =? 0 then 500 else s
  | None => 500
  end.

(** ** routes/items.js *)

Module Items.

Import JS.

Record Item : Type := mkItem {
  id : Z;
  name : string;
  price : option decimal;
  category : option string;
  description : option string;
  createdAt : option string
}.

Definition readData (d : FS.disk (list Item)) : result (list Item) :=
  match FS.file d with
  | FS.Parsed items => Ok items
  | FS.ENOENT => Ok []
  | FS.IOError m => Throw (Error None m)
  | FS.SyntaxError m => Throw (Error None m)
  end.

(** [field && field.toString().toLowerCase().includes(searchTerm)] *)
Definition fieldMatches (searchTerm : string) (field : option string) : bool :=
  match field with
  | None => false
  | Some f => truthy f && includes (toLowerCase f) searchTerm
  end.

Definition searchableFields (item : Item) : list (option string) :=
  [ Some (name item);
    category item;
    description item;
    Some (intToString (id item));
    option_map numToString (price item) ].

Definition searchItems (items : list Item) (query : option string) : list Item :=
  match query with
  | None => items
  | Some q =>
      if negb (truthy q) || String.eqb (trim q) "" then items
      else
        let searchTerm := trim (toLowerCase q) in
        filter (fun item => existsb (fieldMatches searchTerm) (searchableFields item))
               items
  end.

(** The value of a property read from an item. *)
Inductive value : Type :=
| VUndefined
| VNum (n : decimal)
| VStr (s : string).

(** [item[field]] *)
Definition getField (item : Item) (field : string) : value :=
  let ofOpt (o : option string) :=
    match o with Some s => VStr s | None => VUndefined end in
  if String.eqb field "id" then VNum (ofZ (id item))
  else if String.eqb field "name" then VStr (name item)
  else if String.eqb field "price" then
    match price item with Some p => VNum p | None => VUndefined end
  else if String.eqb field "category" then ofOpt (category item)
  else if String.eqb field "description" then ofOpt (description item)
  else if String.eqb field "createdAt" then ofOpt (createdAt item)
  else VUndefined.

(** [a < b]: numbers by value, strings by code units; a comparison with
    [undefined] is false. The two operands of the comparator are read from
    the same field, so a string never meets a number (see
    [getField_no_mix]). *)
Definition lessThan (a b : value) : bool :=
  match a, b with
  | VNum x, VNum y => decLt x y
  | VStr x, VStr y => String.ltb x y
  | _, _ => false
  end.

(** [if (typeof aVal === 'string') { aVal = aVal.toLowerCase();
      bVal = bVal ? bVal.toLowerCase() : ''; }] *)
Definition lowerOperands (aVal bVal : value) : value * value :=
  match aVal with
  | VStr a =>
      (VStr (toLowerCase a),
       match bVal with
       | VStr b => if truthy b then VStr (toLowerCase b) else VStr ""
       | VUndefined => VStr ""
       | VNum _ => bVal
       end)
  | _ => (aVal, bVal)
  end.

(** The comparator handed to [sort], shared by the server and the client:
    [order === 'asc'] selects the direction. *)
Definition compareItems (field order : string) (a b : Item) : Z :=
  let '(aVal, bVal) := lowerOperands (getField a field) (getField b field) in
  if lessThan aVal bVal then (if String.eqb order "asc" then -1 else 1)
  else if lessThan bVal aVal then (if String.eqb order "asc" then 1 else -1)
  else 0.

Definition validSortFields : list string :=
  ["id"; "name"; "price"; "category"; "createdAt"].

Definition sortItems (items : list Item) (sortBy sortOrder : string) : list Item :=
  let field := if existsb (String.eqb sortBy) validSortFields then sortBy else "id" in
  let order := if String.eqb (toLowerCase sortOrder) "desc" then "desc" else "asc" in
  JS.sort (compareItems field order) items.

Record Pagination : Type := mkPagination {
  currentPage : Z;
  totalPages : Z;
  totalItems : Z;
  itemsPerPage : Z;
  hasNextPage : bool;
  hasPrevPage : bool;
  nextPage : option Z;
  prevPage : option Z
}.

Record Page : Type := mkPage { items : list Item; pagination : Pagination }.

(** A raw parameter: absent (the default number is used) or a string. *)
Definition parseParam (p : option string) (default : Z) : option Z :=
  match p with
  | None => Some default
  | Some s => parseInt s
  end.

Definition paginateItems (items : list Item) (page limit : option string) : Page :=
  let pageNum := Z.max 1 (orDefault (parseParam page 1) 1) in
  let limitNum := Z.min 100 (Z.max 1 (orDefault (parseParam limit 10) 10)) in
  let startIndex := (pageNum - 1) * limitNum in
  let endIndex := startIndex + limitNum in
  let paginatedItems := slice items startIndex endIndex in
  let totalItems := Z.of_nat (List.length items) in
  let totalPages := ceilDiv totalItems limitNum in
  mkPage paginatedItems
    (mkPagination pageNum totalPages totalItems limitNum
       (pageNum <? totalPages)
       (pageNum >? 1)
       (if pageNum <? totalPages then Some (pageNum + 1) else None)
       (if pageNum >? 1 then Some (pageNum - 1) else None)).

(** [req.query] *)
Record Query : Type := mkQuery {
  q : option string;
  qCategory : option string;
  qSortBy : option string;
  qSortOrder : option string;
  qPage : option string;
  qLimit : option string
}.

Record SearchInfo : Type := mkSearchInfo {
  query : option string;
  sCategory : option string;
  sSortBy : string;
  sSortOrder : string;
  resultsFound : Z
}.

Record ListResponse : Type := mkListResponse {
  page : Page;
  search : SearchInfo
}.

(** [s || null] *)
Definition orNull (s : option string) : option string :=
  match s with
  | Some v => if truthy v then Some v else None
  | None => None
  end.

Definition withDefault (s : option string) (d : string) : string :=
  match s with Some v => v | None => d end.

(** The category test of the list route. *)
Definition categoryMatches (category0 : string) (item : Item) : bool :=
  match category item with
  | None => false
  | Some c => truthy c && String.eqb (toLowerCase c) (trim (toLowerCase category0))
  end.

Definition filterCategory (data : list Item) (category0 : option string) : list Item :=
  match category0 with
  | Some c =>
      if truthy c && negb (String.eqb (trim c) "")
      then filter (categoryMatches c) data
      else data
  | None => data
  end.

(** The narrowing steps of [GET /], before sorting. *)
Definition narrowed (data : list Item) (rq : Query) : list Item :=
  let results := filterCategory data (qCategory rq) in
  match q rq with
  | Some s => if truthy s then searchItems results (Some s) else results
  | None => results
  end.

(** [router.get('/')] *)
Definition getItems (d : FS.disk (list Item)) (rq : Query) : result ListResponse :=
  data <- readData d ;;
  let sortBy := withDefault (qSortBy rq) "id" in
  let sortOrder := withDefault (qSortOrder rq) "asc" in
  let results := sortItems (narrowed data rq) sortBy sortOrder in
  let paginatedResult := paginateItems results (qPage rq) (qLimit rq) in
  Ok (mkListResponse paginatedResult
        (mkSearchInfo (orNull (q rq)) (orNull (qCategory rq)) sortBy sortOrder
           (Z.of_nat (List.length results)))).

(** [[...new Set(xs)]]: first occurrences, in order. *)
Fixpoint unique (seen xs : list string) : list string :=
  match xs with
  | [] => []
  | x :: r =>
      if existsb (String.eqb x) seen then unique seen r
      else x :: unique (x :: seen) r
  end.

(** The default comparator of [sort] on strings. *)
Definition compareStrings (a b : string) : Z :=
  if String.ltb a b then -1 else if String.ltb b a then 1 else 0.

(** [router.get('/categories')] *)
Definition getCategories (d : FS.disk (list Item)) : result (list string * Z) :=
  data <- readData d ;;
  let named :=
    flat_map (fun item =>
                match category item with
                | Some c => if truthy c && negb (String.eqb (trim c) "") then [c] else []
                | None => []
                end) data in
  let categories := JS.sort compareStrings (unique [] named) in
  Ok (categories, Z.of_nat (List.length categories)).

(** [router.get('/:id')] *)
Definition getItemById (d : FS.disk (list Item)) (idParam : string) : result Item :=
  data <- readData d ;;
  match parseInt idParam with
  | None => Throw (Error (Some 400) "Invalid item ID")
  | Some itemId =>
      match find (fun i => id i =? itemId) data with
      | None => Throw (Error (Some 404) "Item not found")
      | Some item => Ok item
      end
  end.

(** *** The router *)

Inductive method : Type := GET | POST | PUT | PATCH | DELETE.

Inductive body : Type :=
| BList (r : ListResponse)
| BCategories (categories : list string) (total : Z)
| BItem (item : Item).

(** A request below the mount point of the router: its method, the
    segments of its path, its query string and (for a method that carries
    one) its JSON payload. *)
Record Request : Type := mkRequest {
  reqMethod : method;
  reqPath : list string;
  reqQuery : Query;
  reqBody : option Item
}.

(** The routes the file registers, in order: [get('/')],
    [get('/categories')], [get('/:id')]. [None]: no route matches and the
    request falls through to the next middleware. No handler writes the
    backing file. *)
Definition router (d : FS.disk (list Item)) (rq : Request) : option (result body) :=
  match reqMethod rq, reqPath rq with
  | GET, [] => Some (r <- getItems d (reqQuery rq) ;; Ok (BList r))
  | GET, ["categories"] =>
      Some (r <- getCategories d ;; Ok (BCategories (fst r) (snd r)))
  | GET, [idParam] => Some (r <- getItemById d idParam ;; Ok (BItem r))
  | _, _ => None
  end.

End Items.

(** ** routes/stats.js *)

Module Stats.

Import JS.

Record stats : Type := mkStats { total : Z; averagePrice : Q }.

(** [statsCache]; [data] is [None] for [null]. *)
Record cache : Type := mkCache {
  data : option stats;
  timestamp : Z;
  fileModTime : Z
}.

Definition emptyCache : cache := mkCache None 0 0.

Definition CACHE_TTL : Z := 5 * 60 * 1000.

Definition invalidateCache (c : cache) : cache := mkCache None 0 0.

(** [now] is the reading of [Date.now()]. *)
Definition isCacheValid (now : Z) (c : cache) : bool :=
  match data c with
  | None => false
  | Some _ => negb (now - timestamp c >? CACHE_TTL)
  end.

Definition getFileModTime (d : FS.disk (list Items.Item)) : Z :=
  match FS.mtime d with
  | Some m => m
  | None => 0
  end.

(** [typeof cur.price === 'number' ? cur.price : 0] *)
Definition priceOf (cur : Items.Item) : Q :=
  match Items.price cur with
  | Some p => decToQ p
  | None => 0%Q
  end.

(** [Math.round]: the nearest integer, a tie going up. *)
Definition round (x : Q) : Z := Qfloor (x + (1 # 2))%Q.

(** The statistics in exact arithmetic, for the cache: what is stored and
    served does not depend on how the average is rounded. The numbers that
    the program computes are those of [StatsDouble.calculateStats]. *)
Definition calculateStats (items : list Items.Item) : stats :=
  let total := Z.of_nat (List.length items) in
  if total =? 0 then mkStats 0 0%Q
  else
    let totalPrice := fold_left (fun acc cur => (acc + priceOf cur)%Q) items 0%Q in
    let averagePrice :=
      (inject_Z (round ((totalPrice / inject_Z total) * inject_Z 100))
       / inject_Z 100)%Q in
    mkStats total averagePrice.

(** The readings of the clock during one request: at the check of the
    route, at the check of [loadAndCacheStats], and when the cache is filled. *)
Record clock : Type := mkClock { atRoute : Z; atLoad : Z; atFill : Z }.

Definition emptyStats : stats := mkStats 0 0%Q.

(** What one request leaves behind: the answer, the cache, and whether
    [fs.readFile] was called (a recompute was attempted). *)
Record outcome : Type := mkOutcome {
  answer : result stats;
  cacheAfter : cache;
  fileRead : bool
}.

(** The part of [loadAndCacheStats] after the early return: the read, the
    computation and the update of the cache, and the [catch] clause. *)
Definition refill (d : FS.disk (list Items.Item)) (t : clock) (c : cache)
  (currentFileModTime : Z) : outcome :=
  match FS.file d with
  | FS.Parsed items =>
      let s := calculateStats items in
      mkOutcome (Ok s) (mkCache (Some s) (atFill t) currentFileModTime) true
  | FS.ENOENT =>
      mkOutcome (Ok emptyStats)
        (mkCache (Some emptyStats) (atFill t) (fileModTime c)) true
  | FS.IOError m => mkOutcome (Throw (Error None m)) c true
  | FS.SyntaxError m => mkOutcome (Throw (Error None m)) c true
  end.

Definition loadAndCacheStats (d : FS.disk (list Items.Item)) (t : clock) (c : cache)
  : outcome :=
  let currentFileModTime := getFileModTime d in
  match data c with
  | Some cached =>
      if (fileModTime c =? currentFileModTime) && isCacheValid (atLoad t) c
      then mkOutcome (Ok cached) c false
      else refill d t c currentFileModTime
  | None => refill d t c currentFileModTime
  end.

(** [router.get('/')] *)
Definition getStats (d : FS.disk (list Items.Item)) (t : clock) (c : cache)
  : outcome :=
  match (if isCacheValid (atRoute t) c then data c else None) with
  | Some cached => mkOutcome (Ok cached) c false
  | None => loadAndCacheStats d t c
  end.

End Stats.

(** ** Numbers as the program computes with them *)

Module Double.

(** An integer as a floating-point number that is not rounded yet. *)
Definition exact (z : Z) : spec_float :=
  match z with
  | Z0 => S754_zero false
  | Zpos p => S754_finite false p 0
  | Zneg p => S754_finite true p 0
  end.

(** The double that [JSON.parse] reads for a number written in decimal: the
    one nearest to [mant / 10^scale], a tie going to the even one. *)
Definition ofDecimal (d : JS.decimal) : float :=
  SF2Prim (SFdiv prec emax (exact (JS.mant d))
             (exact (10 ^ Z.of_nat (JS.scale d)))).

Definition ofInteger (z : Z) : float := ofDecimal (JS.ofZ z).

(** [Math.round]: the integer nearest to [x], a tie going up; a result that
    is zero keeps the sign of [x], and a number with no fractional part, an
    infinity and NaN are returned as they are. *)
Definition round (x : float) : float :=
  match Prim2SF x with
  | S754_finite s m e =>
      if 0 <=? e then x
      else
        let twice := (if s then Z.neg m else Z.pos m) * 2 + 2 ^ (- e) in
        let n := twice / 2 ^ (1 - e) in
        if n =? 0 then (if s then neg_zero else zero) else ofInteger n
  | _ => x
  end.

(** The rational number that a finite double is. *)
Definition toQ (x : float) : option Q :=
  match Prim2SF x with
  | S754_zero _ => Some 0%Q
  | S754_finite s m e =>
      let n := if s then Z.neg m else Z.pos m in
      Some (Qred (if 0 <=? e then inject_Z (n * 2 ^ e)
                  else inject_Z n / inject_Z (2 ^ (- e))))
  | _ => None
  end.

End Double.

(** ** routes/stats.js: the statistics in double precision *)

Module StatsDouble.

Record stats : Type := mkStats { total : Z; averagePrice : float }.

(** [typeof cur.price === 'number' ? cur.price : 0] *)
Definition priceOf (cur : Items.Item) : float :=
  match Items.price cur with
  | Some p => Double.ofDecimal p
  | None => 0%float
  end.

Definition calculateStats (items : list Items.Item) : stats :=
  let total := Z.of_nat (List.length items) in
  if total =? 0 then mkStats 0 0%float
  else
    let totalPrice := fold_left (fun acc cur => (acc + priceOf cur)%float) items 0%float in
    let averagePrice :=
      (Double.round ((totalPrice / Double.ofInteger total) * 100) / 100)%float in
    mkStats total averagePrice.

End StatsDouble.

(** ** state/DataContext.js: the client-side mirror *)

Module Client.

Import JS.
Import Items.

(** [processItemsClientSide(rawItems, searchParams)] *)
Definition processItemsClientSide (rawItems : list Item) (searchParams : Query)
  : list Item :=
  let filteredItems := rawItems in
  let sortBy := withDefault (qSortBy searchParams) "id" in
  let sortOrder := withDefault (qSortOrder searchParams) "asc" in
  let filteredItems :=
    match q searchParams with
    | Some s =>
        if truthy s && truthy (trim s) then
          let searchTerm := trim (toLowerCase s) in
          filter (fun item => existsb (fieldMatches searchTerm) (searchableFields item))
                 filteredItems
        else filteredItems
    | None => filteredItems
    end in
  let filteredItems :=
    match qCategory searchParams with
    | Some c =>
        if truthy c then
          filter (fun item =>
                    match category item with
                    | None => false
                    | Some ic => truthy ic && String.eqb (toLowerCase ic) (toLowerCase c)
                    end) filteredItems
        else filteredItems
    | None => filteredItems
    end in
  if truthy sortBy && (0 <? Z.of_nat (List.length filteredItems))
  then JS.sort (compareItems sortBy sortOrder) filteredItems
  else filteredItems.

(** What the fallback branch of [fetchItems] stores: the page of items, the
    pagination metadata and the search metadata. *)
Definition fetchItemsFallback (rawItems : list Item) (searchParams : Query)
  : ListResponse :=
  let filteredItems := processItemsClientSide rawItems searchParams in
  let itemsPerPage := orDefault (parseParam (qLimit searchParams) 12) 12 in
  let currentPage := orDefault (parseParam (qPage searchParams) 1) 1 in
  let startIndex := (currentPage - 1) * itemsPerPage in
  let endIndex := startIndex + itemsPerPage in
  let paginatedItems := slice filteredItems startIndex endIndex in
  let totalItems := Z.of_nat (List.length filteredItems) in
  let totalPages := ceilDiv totalItems itemsPerPage in
  mkListResponse
    (mkPage paginatedItems
       (mkPagination currentPage totalPages totalItems itemsPerPage
          (currentPage <? totalPages)
          (currentPage >? 1)
          (if currentPage <? totalPages then Some (currentPage + 1) else None)
          (if currentPage >? 1 then Some (currentPage - 1) else None)))
    (mkSearchInfo (orNull (q searchParams)) (orNull (qCategory searchParams))
       (match qSortBy searchParams with
        | Some s => if truthy s then s else "id"
        | None => "id"
        end)
       (match qSortOrder searchParams with
        | Some s => if truthy s then s else "asc"
        | None => "asc"
        end)
       (Z.of_nat (List.length filteredItems))).

End Client.

(** ** The contract in the words of the specification *)

Module Spec.

Import JS.

Definition clamp (lo hi v : Z) : Z :=
  if v <? lo then lo else if hi <? v then hi else v.

(** The limit of a query: the requested one clamped to 1..100, the default
    10 when none is given or it is not a number or it is 0. *)
Definition effectiveLimit (limit : option string) : Z :=
  match limit with
  | None => 10
  | Some s =>
      match parseInt s with
      | None => 10
      | Some v => if v =? 0 then 10 else clamp 1 100 v
      end
  end.

(** The page of a query: the requested one, at least 1, with no upper
    bound; 1 when none is given or it is not a number. *)
Definition effectivePage (page : option string) : Z :=
  match page with
  | None => 1
  | Some s =>
      match parseInt s with
      | None => 1
      | Some v => if v <? 1 then 1 else v
      end
  end.

(** [t] occurs in [s] as a substring. *)
Definition contains (s t : string) : Prop :=
  exists pre post, s = pre ++ t ++ post.

Definition present (o : option string) : list string :=
  match o with
  | Some s => [s]
  | None => []
  end.

(** The texts the free-text search looks at: the name, the category, the
    description, the id and the price written out. *)
Definition searchedTexts (item : Items.Item) : list string :=
  [Items.name item] ++ present (Items.category item) ++
  present (Items.description item) ++ [intToString (Items.id item)] ++
  present (option_map numToString (Items.price item)).

(** One of the texts contains, whatever the case, the trimmed and
    lowercased search term. *)
Definition matchesSearch (q : string) (item : Items.Item) : Prop :=
  exists text, In text (searchedTexts item) /\
               contains (toLowerCase text) (toLowerCase (trim q)).

(** The item has a category that equals, whatever the case, the trimmed
    query category. *)
Definition inCategory (queryCategory : string) (item : Items.Item) : Prop :=
  exists c, Items.category item = Some c /\
            toLowerCase c = toLowerCase (trim queryCategory).

Definition startsWithSpace (s : string) : bool :=
  match s with
  | String c _ => isWhiteSpace c
  | EmptyString => false
  end.

Fixpoint endsWithSpace (s : string) : bool :=
  match s with
  | EmptyString => false
  | String c EmptyString => isWhiteSpace c
  | String _ r => endsWithSpace r
  end.

Definition isDigit (c : ascii) : bool :=
  let n := nat_of_ascii c in ((48 <=? n) && (n <=? 57))%nat.

Fixpoint allDigits (s : string) : bool :=
  match s with
  | EmptyString => true
  | String c r => isDigit c && allDigits r
  end.

(** The path segment is an integer: an optional sign and one digit or more,
    and nothing else. *)
Definition isInteger (s : string) : bool :=
  let digits :=
    match s with
    | String "-" r => r
    | String "+" r => r
    | _ => s
    end in
  negb (String.eqb digits "") && allDigits digits.

(** Rounding to the nearest integer, a tie going away from zero. *)
Definition roundHalfAwayFromZero (x : Q) : Z :=
  if Qle_bool 0 x then Qfloor (x + (1 # 2))%Q else Qceiling (x - (1 # 2))%Q.

(** The price of an item, 0 when it has none that is a number. *)
Definition priceOrZero (item : Items.Item) : Q :=
  match Items.price item with
  | Some p => decToQ p
  | None => 0%Q
  end.

Definition mean (prices : list Q) : Q :=
  (fold_right Qplus 0 prices / inject_Z (Z.of_nat (List.length prices)))%Q.

(** The average price of the specification: 0 for no price at all, else the
    mean rounded to two decimal places, a tie going away from zero. *)
Definition averagePrice (prices : list Q) : Q :=
  match prices with
  | [] => 0%Q
  | _ => (inject_Z (roundHalfAwayFromZero (mean prices * inject_Z 100))
          / inject_Z 100)%Q
  end.

(** The price that the program holds for an item: the double read from the
    file, as the rational number it is. *)
Definition storedPrice (item : Items.Item) : Q :=
  match Items.price item with
  | Some p =>
      match Double.toQ (Double.ofDecimal p) with
      | Some x => x
      | None => 0%Q
      end
  | None => 0%Q
  end.


End Spec.

(** ** Sample data of the test suite *)

Module Sample.

Import JS.
Import Items.

Definition item1 : Item :=
  mkItem 1 "Test Item 1" (Some (Dec 1099 2)) (Some "electronics") None None.
Definition item2 : Item :=
  mkItem 2 "Test Item 2" (Some (Dec 2550 2)) (Some "books") None None.
Definition item3 : Item :=
  mkItem 3 "Another Item" (Some (Dec 500 2)) (Some "electronics") None None.

Definition mockItems : list Item := [item1; item2; item3].

Definition readable (items : list Item) : FS.disk (list Item) :=
  FS.Disk (Some 1700000000000) (FS.Parsed items).

Definition absent : FS.disk (list Item) := FS.Disk None FS.ENOENT.

Definition noQuery : Query := mkQuery None None None None None None.

(** A cache filled at time 1000 from a file last modified at time 10. *)
Definition filledCache : Stats.cache :=
  Stats.mkCache (Some (Stats.mkStats 1 (5 # 1))) 1000 10.

(** The file as it is after a later modification, at time 20. *)
Definition modifiedFile : FS.disk (list Item) :=
  FS.Disk (Some 20) (FS.Parsed mockItems).

Definition unreadable : FS.disk (list Item) :=
  FS.Disk (Some 10) (FS.IOError "EACCES: permission denied").

(** Two items, the second one without a category. *)
Definition shelved : Item := mkItem 1 "a" None (Some "x") None None.
Definition unshelved : Item := mkItem 2 "b" None None None None.

(** The payload of the integration test. *)
Definition newItem : Item :=
  mkItem 1234567890 "Integration Test Item" (Some (Dec 9999 2)) None None None.

(** Two items priced 1.00 and 1.01. *)
Definition dollar : Item := mkItem 1 "Pen" (Some (Dec 100 2)) None None None.
Definition dollarAndCent : Item := mkItem 2 "Ink" (Some (Dec 101 2)) None None None.

End Sample.

(** The number a sequence of decimal digits stands for, read from the left
    on top of [acc]. *)
Fixpoint uintValue (d : Decimal.uint) (acc : Z) : Z :=
  match d with
  | Decimal.Nil => acc
  | Decimal.D0 l => uintValue l (acc * 10 + 0)
  | Decimal.D1 l => uintValue l (acc * 10 + 1)
  | Decimal.D2 l => uintValue l (acc * 10 + 2)
  | Decimal.D3 l => uintValue l (acc * 10 + 3)
  | Decimal.D4 l => uintValue l (acc * 10 + 4)
  | Decimal.D5 l => uintValue l (acc * 10 + 5)
  | Decimal.D6 l => uintValue l (acc * 10 + 6)
  | Decimal.D7 l => uintValue l (acc * 10 + 7)
  | Decimal.D8 l => uintValue l (acc * 10 + 8)
  | Decimal.D9 l => uintValue l (acc * 10 + 9)
  end.

(** ** routes/stats.js: invalidation and the status of the cache *)

Module StatsRoutes.

Import Stats.

(** [router.delete('/cache')]: the message sent and the cache left. *)
Definition deleteCache (c : cache) : string * cache :=
  ("Cache invalidated successfully", invalidateCache c).

(** [lastUpdated] is the instant that the route writes out as an ISO date. *)
Record cacheStatus : Type := mkCacheStatus {
  cached : bool;
  cacheAge : Z;
  cacheValid : bool;
  lastUpdated : option Z
}.

(** [router.get('/cache/status')]; [now] is the reading of the clock taken
    by the route and [nowValid] the one taken by [isCacheValid]. *)
Definition getCacheStatus (now nowValid : Z) (c : cache) : cacheStatus :=
  let cacheAge := if timestamp c =? 0 then 0 else now - timestamp c in
  mkCacheStatus
    (match data c with Some _ => true | None => false end)
    cacheAge
    (isCacheValid nowValid c)
    (if timestamp c =? 0 then None else Some (timestamp c)).

End StatsRoutes.

(** ** routes/stats.js: a request among others *)

Module StatsAwait.

Import Stats.

(** [statsCache] is a variable of the module, shared by all requests, and a
    request gives way to the others at each [await]. These are the values
    that one request finds in it: on arrival, after
    [await getFileModTime()] and after [await fs.readFile(...)]. *)
Record snapshots : Type := mkSnapshots {
  onArrival : cache;
  afterStat : cache;
  afterRead : cache
}.

(** A request that no other request interferes with. *)
Definition alone (c : cache) : snapshots := mkSnapshots c c c.

Definition loadAndCacheStats (d : FS.disk (list Items.Item)) (t : clock)
  (s : snapshots) : outcome :=
  let currentFileModTime := getFileModTime d in
  match data (afterStat s) with
  | Some cached =>
      if (fileModTime (afterStat s) =? currentFileModTime)
         && isCacheValid (atLoad t) (afterStat s)
      then mkOutcome (Ok cached) (afterStat s) false
      else refill d t (afterRead s) currentFileModTime
  | None => refill d t (afterRead s) currentFileModTime
  end.

(** [router.get('/')] *)
Definition getStats (d : FS.disk (list Items.Item)) (t : clock) (s : snapshots)
  : outcome :=
  match (if isCacheValid (atRoute t) (onArrival s) then data (onArrival s)
         else None) with
  | Some cached => mkOutcome (Ok cached) (onArrival s) false
  | None => loadAndCacheStats d t s
  end.

End StatsAwait.

(** ** The pagination component of the client *)

Module PaginationView.

Import JS.

(** An entry of the row of page buttons: a page number or ['...']. *)
Inductive entry : Type :=
| Number (n : Z)
| Ellipsis.

(** [for (let i = start; i <= end; i++) range.push(i)] *)
Definition rangeList (start stop : Z) : list Z :=
  map (fun i => start + Z.of_nat i) (seq 0 (Z.to_nat (stop - start + 1))).

Definition pageNumbers (currentPage totalPages : Z) : list entry :=
  let delta := 2 in
  let start := Z.max 1 (currentPage - delta) in
  let stop := Z.min totalPages (currentPage + delta) in
  let range := rangeList start stop in
  let before :=
    if start >? 2 then Number 1 :: (if start >? 3 then [Ellipsis] else [])
    else if start =? 2 then [Number 1]
    else [] in
  let after :=
    if stop <? totalPages - 1
    then ((if stop <? totalPages - 2 then [Ellipsis] else []) ++ [Number totalPages])%list
    else if stop =? totalPages - 1 then [Number totalPages]
    else [] in
  (before ++ map Number range ++ after)%list.

Definition numbersOf (entries : list entry) : list Z :=
  flat_map (fun e => match e with Number n => [n] | Ellipsis => [] end) entries.

(** "Showing [start] to [end] of [totalItems] items" *)
Definition itemRange (pg : Items.Pagination) : Z * Z :=
  let start := (Items.currentPage pg - 1) * Items.itemsPerPage pg + 1 in
  let stop := Z.min (Items.currentPage pg * Items.itemsPerPage pg) (Items.totalItems pg) in
  (start, stop).

(** The handlers: the page handed to [onPageChange], if any. *)
Definition handlePageClick (pg : Items.Pagination) (page : Z) : option Z :=
  if negb (page =? Items.currentPage pg) && (page >=? 1) &&
     (page <=? Items.totalPages pg)
  then Some page else None.

Definition handlePrevious (pg : Items.Pagination) : option Z :=
  if Items.hasPrevPage pg then Some (Items.currentPage pg - 1) else None.

Definition handleNext (pg : Items.Pagination) : option Z :=
  if Items.hasNextPage pg then Some (Items.currentPage pg + 1) else None.

Definition handleFirst (pg : Items.Pagination) : option Z :=
  if negb (Items.currentPage pg =? 1) then Some 1 else None.

Definition handleLast (pg : Items.Pagination) : option Z :=
  if negb (Items.currentPage pg =? Items.totalPages pg)
  then Some (Items.totalPages pg) else None.

(** What the user can do on the component: press one of the four arrows,
    press the button of a page, or type into the jump field and press Enter. *)
Inductive action : Type :=
| First
| Previous
| Next
| Last
| Page (n : Z)
| Jump (typed : string).

(** The component renders nothing for one page or less, and the jump field
    only for more than ten pages. *)
Definition onAction (pg : Items.Pagination) (a : action) : option Z :=
  if Items.totalPages pg <=? 1 then None
  else
    match a with
    | First => handleFirst pg
    | Previous => handlePrevious pg
    | Next => handleNext pg
    | Last => handleLast pg
    | Page n => handlePageClick pg n
    | Jump typed =>
        if Items.totalPages pg >? 10 then
          match parseInt typed with
          | Some page =>
              if (page >=? 1) && (page <=? Items.totalPages pg)
              then handlePageClick pg page else None
          | None => None
          end
        else None
    end.

End PaginationView.

(** ** The grid of the items page *)

Module ItemsPage.

Record GridConfig : Type := mkGridConfig {
  columnCount : Z;
  columnWidth : Z;
  rowHeight : Z;
  itemsPerRow : Z
}.

(** [gridConfig], for a container width in whole pixels. *)
Definition gridConfig (containerWidth : Z) (viewMode : string) : GridConfig :=
  let minItemWidth := if String.eqb viewMode "grid" then 280 else containerWidth in
  let itemHeight := if String.eqb viewMode "grid" then 200 else 80 in
  let columnGap := 16 in
  let rowGap := 16 in
  if String.eqb viewMode "list" then mkGridConfig 1 containerWidth itemHeight 1
  else
    let availableWidth := containerWidth - 32 in
    let columnsCount :=
      Z.max 1 ((availableWidth + columnGap) / (minItemWidth + columnGap)) in
    let columnWidth :=
      (availableWidth - (columnsCount - 1) * columnGap) / columnsCount in
    mkGridConfig columnsCount columnWidth (itemHeight + rowGap) columnsCount.

(** [Math.ceil(items.length / gridConfig.itemsPerRow)] *)
Definition rowCount (items : list Items.Item) (cfg : GridConfig) : Z :=
  JS.ceilDiv (Z.of_nat (List.length items)) (itemsPerRow cfg).

(** The item [ItemRenderer] draws in a cell; [None] is the empty cell. *)
Definition cellItem (items : list Items.Item) (cfg : GridConfig)
  (rowIndex columnIndex : Z) : option Items.Item :=
  let itemIndex := rowIndex * itemsPerRow cfg + columnIndex in
  if itemIndex <? 0 then None else nth_error items (Z.to_nat itemIndex).

End ItemsPage.

(** ** Suggestions computed by the client *)

Module Suggestions.

Import JS.

(** The names and categories that contain the term, in the order in which
    [forEach] meets them. *)
Definition candidates (searchTerm : string) (allItems : list Items.Item) : list string :=
  flat_map (fun item =>
              ((if truthy (Items.name item) &&
                   includes (toLowerCase (Items.name item)) searchTerm
                then [Items.name item] else []) ++
               match Items.category item with
               | Some c =>
                   if truthy c && includes (toLowerCase c) searchTerm
                   then [c] else []
               | None => []
               end)%list) allItems.

(** The suggestions [fetchSearchSuggestions] computes itself, when the
    server does not answer the suggestions request with success. *)
Definition fallbackSuggestions (allItems : list Items.Item) (query : string)
  : list string :=
  if negb (truthy query) || (Z.of_nat (String.length (trim query)) <? 2) then []
  else
    let searchTerm := toLowerCase query in
    slice (Items.unique [] (candidates searchTerm allItems)) 0 10.

End Suggestions.

(** ** state/DataContext.js: requests and their cancellation *)

Module Requests.

(** The state the provider holds. *)
Record View : Type := mkView {
  items : list Items.Item;
  allItems : list Items.Item;
  pagination : option Items.Pagination;
  searchMetadata : option Items.SearchInfo;
  loading : bool;
  error : option string
}.

(** [trackers] holds the [cancelled] flag of every request tracker created
    so far, in the order of creation; [active] is [activeRequestRef.current],
    a tracker named by its position. *)
Record Store : Type := mkStore {
  view : View;
  trackers : list bool;
  active : option nat
}.

Definition initial : Store :=
  mkStore (mkView [] [] None None false None) [] None.

(** [tracker.cancelled = true] *)
Fixpoint cancel (k : nat) (flags : list bool) : list bool :=
  match flags, k with
  | [], _ => []
  | _ :: r, O => true :: r
  | f :: r, S k' => f :: cancel k' r
  end.

(** A tracker that does not exist cannot report anything. *)
Definition cancelled (k : nat) (s : Store) : bool := nth k (trackers s) true.

(** The part of [fetchItems] that runs before the first [await]: the
    request in flight is cancelled, a tracker is created and made the active
    one, [loading] is set and [error] cleared. The position of the tracker is
    returned. *)
Definition start (s : Store) : nat * Store :=
  let flags :=
    match active s with
    | Some k => cancel k (trackers s)
    | None => trackers s
    end in
  let k := List.length flags in
  let v := view s in
  (k, mkStore (mkView (items v) (allItems v) (pagination v) (searchMetadata v)
                 true None)
        (flags ++ [false])%list (Some k)).

(** How a request ends: with the paginated answer of the server, with the
    array of the simple server (processed by the client for the parameters of
    the request), or with an error of the last fetch. *)
Inductive settlement : Type :=
| Enhanced (response : Items.ListResponse)
| Legacy (rawItems : list Items.Item) (searchParams : Items.Query)
| Failed (message : string).

(** The part of [fetchItems] that runs after the last [await] of request
    [k], with the [catch] and [finally] clauses: nothing is stored when the
    tracker of the request has been cancelled. *)
Definition settle (k : nat) (o : settlement) (s : Store) : Store :=
  if cancelled k s then s
  else
    let v := view s in
    match o with
    | Enhanced response =>
        mkStore (mkView (Items.items (Items.page response))
                   (Items.items (Items.page response))
                   (Some (Items.pagination (Items.page response)))
                   (Some (Items.search response)) false (error v))
          (trackers s) (active s)
    | Legacy rawItems searchParams =>
        let r := Client.fetchItemsFallback rawItems searchParams in
        mkStore (mkView (Items.items (Items.page r)) rawItems
                   (Some (Items.pagination (Items.page r)))
                   (Some (Items.search r)) false (error v))
          (trackers s) (active s)
    | Failed message =>
        mkStore (mkView (items v) (allItems v) (pagination v) (searchMetadata v)
                   false (Some message))
          (trackers s) (active s)
    end.

(** [cleanup] *)
Definition cleanup (s : Store) : Store :=
  match active s with
  | Some k => mkStore (view s) (cancel k (trackers s)) None
  | None => s
  end.

(** What happens to the provider, in order. *)
Inductive event : Type :=
| Start
| Settle (k : nat) (o : settlement)
| Cleanup.

Definition step (s : Store) (e : event) : Store :=
  match e with
  | Start => snd (start s)
  | Settle k o => settle k o s
  | Cleanup => cleanup s
  end.

Definition run (events : list event) (s : Store) : Store :=
  fold_left step events s.

(** The active tracker is one of the trackers created. *)
Definition wellFormed (s : Store) : Prop :=
  forall k, active s = Some k -> (k < List.length (trackers s))%nat.

End Requests.

(** * Properties *)

(** ** The expectations of the test suite, replayed on the embedding *)

Example parseInt_samples :
  JS.parseInt "12abc" = Some 12 /\ JS.parseInt "abc" = None /\
  JS.parseInt " -7" = Some (-7) /\ JS.parseInt "0x1f" = Some 31 /\
  JS.parseInt "" = None /\ JS.parseInt "1.5" = Some 1.
Proof. repeat split. Qed.

Example numToString_samples :
  JS.numToString (JS.Dec 1099 2) = "10.99" /\
  JS.numToString (JS.Dec 2550 2) = "25.5" /\
  JS.numToString (JS.Dec 500 2) = "5" /\
  JS.numToString (JS.Dec (-125) 3) = "-0.125" /\
  JS.numToString (JS.Dec 5 3) = "0.005".
Proof. repeat split. Qed.

Example string_samples :
  JS.trim "  Test Item  " = "Test Item" /\
  JS.toLowerCase "Test ITEM 1" = "test item 1" /\
  JS.includes "test item 1" "item" = true /\
  JS.includes "another" "test" = false.
Proof. repeat split. Qed.

Example list_route_samples :
  let served rq := Items.getItems (Sample.readable Sample.mockItems) rq in
  let shown r := map Items.id (Items.items (Items.page r)) in
  (exists r, served Sample.noQuery = Ok r /\ shown r = [1; 2; 3]) /\
  (exists r, served (Items.mkQuery (Some "test") None None None None None) = Ok r /\
             shown r = [1; 2] /\ Items.resultsFound (Items.search r) = 2) /\
  (exists r, served (Items.mkQuery None None None None None (Some "2")) = Ok r /\
             shown r = [1; 2] /\
             Items.hasNextPage (Items.pagination (Items.page r)) = true) /\
  (exists r, served (Items.mkQuery None (Some "electronics") None None None None) = Ok r /\
             shown r = [1; 3]) /\
  (exists r, served (Items.mkQuery None None (Some "name") (Some "asc") None None) = Ok r /\
             shown r = [3; 1; 2]) /\
  (exists r, served (Items.mkQuery None None (Some "price") (Some "desc") None None) = Ok r /\
             shown r = [2; 1; 3]).
Proof. cbv zeta. repeat split; eexists; repeat split. Qed.

Example categories_sample :
  Items.getCategories (Sample.readable Sample.mockItems) =
  Ok (["books"; "electronics"], 2).
Proof. reflexivity. Qed.

(** ** Lists: slices and the sort *)

Section ListFacts.

Context {A : Type}.

Lemma insert_perm (cmp : A -> A -> Z) (x : A) (l : list A) :
  Permutation (JS.insert cmp x l) (x :: l).
Proof.
  induction l as [| y r IH]; simpl.
  - apply Permutation_refl.
  - destruct (cmp x y <? 0).
    + apply Permutation_refl.
    + apply Permutation_trans with (y :: x :: r).
      * now apply perm_skip.
      * apply perm_swap.
Qed.

Lemma sort_from_perm (cmp : A -> A -> Z) (l acc : list A) :
  Permutation (fold_left (fun a x => JS.insert cmp x a) l acc) (acc ++ l).
Proof.
  revert acc; induction l as [| x r IH]; intro acc; simpl.
  - rewrite app_nil_r. apply Permutation_refl.
  - eapply Permutation_trans; [apply IH |].
    eapply Permutation_trans.
    + apply Permutation_app_tail, insert_perm.
    + simpl. apply Permutation_middle.
Qed.

Lemma sort_perm (cmp : A -> A -> Z) (l : list A) :
  Permutation (JS.sort cmp l) l.
Proof. exact (sort_from_perm cmp l []). Qed.

Lemma sort_length (cmp : A -> A -> Z) (l : list A) :
  List.length (JS.sort cmp l) = List.length l.
Proof. apply Permutation_length, sort_perm. Qed.


(** A slice that starts at a non-negative index is a window of the list. *)
Lemma slice_window (l : list A) (start len : Z) :
  0 <= start -> 0 <= len ->
  JS.slice l start (start + len) =
  firstn (Z.to_nat len) (skipn (Z.to_nat start) l).
Proof.
  intros Hs Hl. unfold JS.slice.
  destruct (Z.ltb_spec start 0); [lia |].
  destruct (Z.ltb_spec (start + len) 0); [lia |].
  set (n := Z.of_nat (List.length l)).
  destruct (Z.le_gt_cases n start) as [Hout | Hin].
  - rewrite (skipn_all2 l) by lia.
    rewrite (skipn_all2 l) by lia.
    now rewrite !firstn_nil.
  - replace (Z.min start n) with start by lia.
    destruct (Z.le_gt_cases (start + len) n) as [Hfit | Hcut].
    + f_equal. lia.
    + rewrite !firstn_all2; try reflexivity; rewrite length_skipn; lia.
Qed.

Lemma slice_window_length (l : list A) (start len : Z) :
  0 <= start -> 0 <= len ->
  Z.of_nat (List.length (JS.slice l start (start + len))) =
  Z.min len (Z.max 0 (Z.of_nat (List.length l) - start)).
Proof.
  intros Hs Hl. rewrite slice_window by assumption.
  rewrite length_firstn, length_skipn. lia.
Qed.

End ListFacts.

Lemma ceilDiv_spec (n l : Z) :
  0 < l -> (JS.ceilDiv n l - 1) * l < n <= JS.ceilDiv n l * l.
Proof.
  intro Hl. unfold JS.ceilDiv.
  pose proof (Z.div_mod (- n) l ltac:(lia)) as E.
  pose proof (Z.mod_pos_bound (- n) l Hl) as B.
  nia.
Qed.

(** ** The pagination contract of GET /api/items *)

Lemma effectiveLimit_code (limit : option string) :
  Z.min 100 (Z.max 1 (JS.orDefault (Items.parseParam limit 10) 10)) =
  Spec.effectiveLimit limit.
Proof.
  unfold Spec.effectiveLimit, Items.parseParam, JS.orDefault, Spec.clamp.
  destruct limit as [s |]; [| reflexivity].
  destruct (JS.parseInt s) as [v |]; [| reflexivity].
  destruct v as [| v | v]; simpl; try reflexivity.
  destruct (Z.ltb_spec (Z.pos v) 1); destruct (Z.ltb_spec 100 (Z.pos v)); lia.
Qed.

Lemma effectivePage_code (page : option string) :
  Z.max 1 (JS.orDefault (Items.parseParam page 1) 1) = Spec.effectivePage page.
Proof.
  unfold Spec.effectivePage, Items.parseParam, JS.orDefault.
  destruct page as [s |]; [| reflexivity].
  destruct (JS.parseInt s) as [v |]; [| reflexivity].
  destruct v as [| v | v]; simpl; try reflexivity.
  destruct (Z.ltb_spec (Z.pos v) 1); lia.
Qed.

Lemma effectiveLimit_range (limit : option string) :
  1 <= Spec.effectiveLimit limit <= 100.
Proof. rewrite <- effectiveLimit_code. lia. Qed.

Lemma effectivePage_range (page : option string) : 1 <= Spec.effectivePage page.
Proof. rewrite <- effectivePage_code. lia. Qed.

Lemma getItems_total (d : FS.disk (list Items.Item)) (rq : Items.Query)
  (data : list Items.Item) :
  Items.readData d = Ok data ->
  Items.getItems d rq =
  Ok (let sortBy := Items.withDefault (Items.qSortBy rq) "id" in
      let sortOrder := Items.withDefault (Items.qSortOrder rq) "asc" in
      let results := Items.sortItems (Items.narrowed data rq) sortBy sortOrder in
      Items.mkListResponse
        (Items.paginateItems results (Items.qPage rq) (Items.qLimit rq))
        (Items.mkSearchInfo (Items.orNull (Items.q rq))
           (Items.orNull (Items.qCategory rq)) sortBy sortOrder
           (Z.of_nat (List.length results)))).
Proof. intro H. unfold Items.getItems. rewrite H. reflexivity. Qed.

(** C1. Whenever the collection can be read, GET /api/items answers, and its
    answer obeys the pagination contract: the limit in force is the
    requested one clamped to 1..100 (10 for limit=0, 100 for limit=200), the
    page in force is the requested one raised to 1 at least, totalItems is
    resultsFound (the number of items left by the category filter and the
    search), the page holds min(limit, max(0, resultsFound - (page-1)*limit))
    items, namely the window starting at (page-1)*limit of the filtered and
    sorted sequence, a page past the end is empty, and totalPages is the
    least number of pages that hold resultsFound items. *)
Theorem pagination_contract (d : FS.disk (list Items.Item)) (rq : Items.Query)
  (data : list Items.Item) :
  Items.readData d = Ok data ->
  exists r, Items.getItems d rq = Ok r /\
    let pg := Items.pagination (Items.page r) in
    let got := Items.items (Items.page r) in
    let L := Items.itemsPerPage pg in
    let P := Items.currentPage pg in
    let N := Items.resultsFound (Items.search r) in
    let sorted :=
      Items.sortItems (Items.narrowed data rq)
        (Items.withDefault (Items.qSortBy rq) "id")
        (Items.withDefault (Items.qSortOrder rq) "asc") in
    L = Spec.effectiveLimit (Items.qLimit rq) /\ 1 <= L <= 100 /\
    (Items.qLimit rq = Some "0" -> L = 10) /\
    (Items.qLimit rq = Some "200" -> L = 100) /\
    P = Spec.effectivePage (Items.qPage rq) /\ 1 <= P /\
    Items.totalItems pg = N /\
    N = Z.of_nat (List.length (Items.narrowed data rq)) /\
    Z.of_nat (List.length got) = Z.min L (Z.max 0 (N - (P - 1) * L)) /\
    got = firstn (Z.to_nat L) (skipn (Z.to_nat ((P - 1) * L)) sorted) /\
    (N <= (P - 1) * L -> got = []) /\
    (Items.totalPages pg - 1) * L < N <= Items.totalPages pg * L.
Proof.
  intro Hread. eexists. split; [apply getItems_total, Hread |].
  cbv zeta. unfold Items.paginateItems. cbn [Items.page Items.search
    Items.pagination Items.items Items.itemsPerPage Items.currentPage
    Items.resultsFound Items.totalItems Items.totalPages].
  rewrite effectiveLimit_code, effectivePage_code.
  pose proof (effectiveLimit_range (Items.qLimit rq)) as HL.
  pose proof (effectivePage_range (Items.qPage rq)) as HP.
  set (sorted := Items.sortItems _ _ _).
  assert (Hlen : List.length sorted = List.length (Items.narrowed data rq))
    by apply sort_length.
  assert (E0 : Spec.effectiveLimit (Some "0") = 10) by reflexivity.
  assert (E200 : Spec.effectiveLimit (Some "200") = 100) by reflexivity.
  remember (Spec.effectiveLimit (Items.qLimit rq)) as L eqn:EL.
  set (P := Spec.effectivePage (Items.qPage rq)) in *.
  assert (Hwin : Z.of_nat (List.length (JS.slice sorted ((P - 1) * L) ((P - 1) * L + L)))
                 = Z.min L (Z.max 0 (Z.of_nat (List.length sorted) - (P - 1) * L)))
    by (apply slice_window_length; nia).
  repeat split; try lia.
  - intro E. rewrite EL, E. exact E0.
  - intro E. rewrite EL, E. exact E200.
  - apply slice_window; nia.
  - intro Hout. apply length_zero_iff_nil. lia.
  - apply ceilDiv_spec; lia.
  - apply ceilDiv_spec; lia.
Qed.

Lemma pagination_contract_witness :
  exists r, Items.getItems (Sample.readable Sample.mockItems)
              (Items.mkQuery None None None None (Some "2") (Some "2")) = Ok r /\
            Items.items (Items.page r) = [Sample.item3] /\
            Items.totalPages (Items.pagination (Items.page r)) = 2.
Proof.
  destruct (pagination_contract (Sample.readable Sample.mockItems)
              (Items.mkQuery None None None None (Some "2") (Some "2"))
              Sample.mockItems eq_refl) as [r [Hr _]].
  exists r. split; [exact Hr |].
  vm_compute in Hr. injection Hr as <-. split; reflexivity.
Defined.

(** ** Strings: containment, trimming and case folding *)

Lemma startsWith_spec (s t : string) :
  JS.startsWith s t = true <-> exists post, s = t ++ post.
Proof.
  revert s; induction t as [| b t IH]; intro s; destruct s as [| a s]; simpl.
  - split; [intros _; now exists "" | reflexivity].
  - split; [intros _; now exists (String a s) | reflexivity].
  - split; [discriminate | intros [post H]; discriminate].
  - rewrite andb_true_iff, Ascii.eqb_eq, IH. split.
    + intros [-> [post ->]]. now exists post.
    + intros [post H]. injection H as -> ->. split; [reflexivity | now exists post].
Qed.

Lemma includes_spec (s t : string) :
  JS.includes s t = true <-> exists pre post, s = pre ++ t ++ post.
Proof.
  induction s as [| a s IH].
  - cbn [JS.includes]. rewrite orb_false_r, startsWith_spec. split.
    + intros [post H]. now exists "", post.
    + intros [pre [post H]]. destruct pre; [now exists post | discriminate].
  - cbn [JS.includes]. rewrite orb_true_iff, IH, startsWith_spec. split.
    + intros [[post H] | [pre [post H]]].
      * now exists "", post.
      * exists (String a pre), post. simpl. now rewrite H.
    + intros [pre [post H]]. destruct pre as [| x pre].
      * left. now exists post.
      * right. simpl in H. injection H as _ H. now exists pre, post.
Qed.

Lemma includes_empty (t : string) : JS.includes "" t = true -> t = "".
Proof. destruct t; [reflexivity | discriminate]. Qed.

Lemma truthy_true (s : string) : JS.truthy s = true <-> s <> "".
Proof.
  unfold JS.truthy. rewrite negb_true_iff. split.
  - intros H ->. discriminate.
  - intro H. apply String.eqb_neq. exact H.
Qed.

Lemma truthy_false (s : string) : JS.truthy s = false <-> s = "".
Proof.
  unfold JS.truthy. rewrite negb_false_iff. apply String.eqb_eq.
Qed.

Lemma lowerChar_ws (c : ascii) : JS.isWhiteSpace (JS.lowerChar c) = JS.isWhiteSpace c.
Proof. destruct c as [[] [] [] [] [] [] [] []]; reflexivity. Qed.

Lemma lowerChar_idem (c : ascii) : JS.lowerChar (JS.lowerChar c) = JS.lowerChar c.
Proof. destruct c as [[] [] [] [] [] [] [] []]; reflexivity. Qed.

Lemma toLowerCase_idem (s : string) :
  JS.toLowerCase (JS.toLowerCase s) = JS.toLowerCase s.
Proof.
  induction s as [| c s IH]; simpl; [reflexivity |].
  now rewrite lowerChar_idem, IH.
Qed.

Lemma toLowerCase_empty (s : string) : JS.toLowerCase s = "" <-> s = "".
Proof. destruct s; simpl; split; intro H; try reflexivity; discriminate. Qed.

Lemma trimStart_lower (s : string) :
  JS.trimStart (JS.toLowerCase s) = JS.toLowerCase (JS.trimStart s).
Proof.
  induction s as [| c s IH]; simpl; [reflexivity |].
  rewrite lowerChar_ws. destruct (JS.isWhiteSpace c); [exact IH | reflexivity].
Qed.

Lemma trimEnd_lower (s : string) :
  JS.trimEnd (JS.toLowerCase s) = JS.toLowerCase (JS.trimEnd s).
Proof.
  induction s as [| c s IH]; simpl; [reflexivity |].
  rewrite IH, lowerChar_ws.
  destruct (JS.trimEnd s); simpl; [| reflexivity].
  destruct (JS.isWhiteSpace c); reflexivity.
Qed.

(** Trimming and case folding commute. *)
Lemma trim_lower (s : string) :
  JS.trim (JS.toLowerCase s) = JS.toLowerCase (JS.trim s).
Proof. unfold JS.trim. now rewrite trimStart_lower, trimEnd_lower. Qed.

Lemma trim_empty : JS.trim "" = "".
Proof. reflexivity. Qed.

(** ** The free-text search *)

Lemma fieldMatches_spec (term : string) (field : option string) :
  term <> "" ->
  (Items.fieldMatches term field = true <->
   exists f, field = Some f /\ Spec.contains (JS.toLowerCase f) term).
Proof.
  intro Hterm. unfold Items.fieldMatches, Spec.contains. destruct field as [f |].
  - rewrite andb_true_iff, includes_spec, truthy_true. split.
    + intros [_ H]. exists f. now split.
    + intros [f' [E H]]. injection E as <-. split; [| exact H].
      intros ->. destruct H as [pre [post H]]. simpl in H.
      destruct pre; [destruct term; [now apply Hterm | discriminate] | discriminate].
  - split; [discriminate | intros [f [E _]]; discriminate].
Qed.

Lemma searchable_spec (term : string) (item : Items.Item) :
  term <> "" ->
  (existsb (Items.fieldMatches term) (Items.searchableFields item) = true <->
   exists text, In text (Spec.searchedTexts item) /\
                Spec.contains (JS.toLowerCase text) term).
Proof.
  intro Hterm. rewrite existsb_exists. split.
  - intros [field [Hin Hm]]. apply (fieldMatches_spec term field Hterm) in Hm.
    destruct Hm as [f [-> Hc]]. exists f. split; [| exact Hc].
    unfold Items.searchableFields in Hin. unfold Spec.searchedTexts.
    destruct item as [i n p c dsc cr]; simpl in *.
    destruct Hin as [H | [H | [H | [H | [H | []]]]]].
    + injection H as ->. now left.
    + subst c. right. now left.
    + subst dsc. right. apply in_or_app. right. now left.
    + injection H as <-. right. apply in_or_app. right. apply in_or_app. right. now left.
    + destruct p as [p |]; [| discriminate]. injection H as <-.
      right. apply in_or_app. right. apply in_or_app. right. right. now left.
  - intros [text [Hin Hc]]. exists (Some text). split.
    + unfold Items.searchableFields. unfold Spec.searchedTexts in Hin.
      destruct item as [i n p c dsc cr]; simpl in *.
      destruct Hin as [H | Hin]; [subst; now left |].
      apply in_app_or in Hin. destruct Hin as [Hin | Hin].
      { destruct c as [c |]; simpl in Hin; [| contradiction].
        destruct Hin as [-> | []]. right. now left. }
      apply in_app_or in Hin. destruct Hin as [Hin | Hin].
      { destruct dsc as [dsc |]; simpl in Hin; [| contradiction].
        destruct Hin as [-> | []]. right. right. now left. }
      destruct Hin as [H | Hin]; [subst; right; right; right; now left |].
      destruct p as [p |]; simpl in Hin; [| contradiction].
      destruct Hin as [<- | []]. right. right. right. right. now left.
    + apply (fieldMatches_spec term (Some text) Hterm). exists text. now split.
Qed.

(** C6. For a query that trims to a non-empty term, the search keeps, in
    their order, exactly the items one of whose texts (name, category,
    description, id written out, price written out) contains the trimmed,
    lowercased term, whatever the case of the text; the query "TEST" over
    the three sample items keeps the two "Test" items; a query that trims to
    the empty string keeps the whole list. *)
Theorem search_keeps_matching_items (items : list Items.Item) (q : string) :
  (JS.trim q <> "" ->
   exists keep : Items.Item -> bool,
     Items.searchItems items (Some q) = filter keep items /\
     forall item, keep item = true <-> Spec.matchesSearch q item) /\
  (JS.trim q = "" -> Items.searchItems items (Some q) = items) /\
  Items.searchItems Sample.mockItems (Some "TEST") = [Sample.item1; Sample.item2].
Proof.
  split; [| split].
  - intro Hq.
    assert (Hterm : JS.trim (JS.toLowerCase q) <> "").
    { rewrite trim_lower. intro H. apply Hq. exact (proj1 (toLowerCase_empty _) H). }
    exists (fun item =>
              existsb (Items.fieldMatches (JS.trim (JS.toLowerCase q)))
                      (Items.searchableFields item)).
    split.
    + unfold Items.searchItems.
      assert (Hne : q <> "") by (intros ->; now apply Hq).
      apply truthy_true in Hne. rewrite Hne. simpl.
      apply String.eqb_neq in Hq. rewrite Hq. reflexivity.
    + intro item. rewrite (searchable_spec _ item Hterm).
      unfold Spec.matchesSearch. now rewrite trim_lower.
  - intro Hq. unfold Items.searchItems. rewrite Hq. simpl.
    now rewrite orb_true_r.
  - reflexivity.
Qed.

Lemma search_keeps_matching_items_witness :
  exists keep : Items.Item -> bool,
    Items.searchItems Sample.mockItems (Some " Item 1 ") = filter keep Sample.mockItems /\
    forall item, keep item = true <-> Spec.matchesSearch " Item 1 " item.
Proof.
  apply (proj1 (search_keeps_matching_items Sample.mockItems " Item 1 ")).
  vm_compute. discriminate.
Defined.

(** ** The category filter *)

Lemma trimStart_no_leading_space (s : string) :
  Spec.startsWithSpace (JS.trimStart s) = false.
Proof.
  induction s as [| c s IH]; simpl; [reflexivity |].
  destruct (JS.isWhiteSpace c) eqn:E; [exact IH | simpl; exact E].
Qed.

Lemma trimEnd_keeps_start (s : string) :
  Spec.startsWithSpace s = false -> Spec.startsWithSpace (JS.trimEnd s) = false.
Proof.
  destruct s as [| c s]; simpl; [reflexivity |].
  intro E. destruct (JS.trimEnd s); [rewrite E |]; simpl; auto.
Qed.

Lemma trimEnd_no_trailing_space (s : string) :
  Spec.endsWithSpace (JS.trimEnd s) = false.
Proof.
  induction s as [| c s IH]; simpl; [reflexivity |].
  destruct (JS.trimEnd s) as [| a r] eqn:E.
  - destruct (JS.isWhiteSpace c) eqn:W; simpl; [reflexivity | exact W].
  - exact IH.
Qed.

Lemma trim_no_outer_space (s : string) :
  Spec.startsWithSpace (JS.trim s) = false /\ Spec.endsWithSpace (JS.trim s) = false.
Proof.
  unfold JS.trim. split.
  - apply trimEnd_keeps_start, trimStart_no_leading_space.
  - apply trimEnd_no_trailing_space.
Qed.

Lemma lower_startsWithSpace (s : string) :
  Spec.startsWithSpace (JS.toLowerCase s) = Spec.startsWithSpace s.
Proof. destruct s; simpl; [reflexivity | apply lowerChar_ws]. Qed.

Lemma lower_endsWithSpace (s : string) :
  Spec.endsWithSpace (JS.toLowerCase s) = Spec.endsWithSpace s.
Proof.
  induction s as [| c s IH]; [reflexivity |].
  destruct s as [| a r]; [simpl; apply lowerChar_ws |].
  exact IH.
Qed.

Lemma categoryMatches_spec (c : string) (item : Items.Item) :
  JS.trim c <> "" ->
  (Items.categoryMatches c item = true <-> Spec.inCategory c item).
Proof.
  intro Hc. unfold Items.categoryMatches, Spec.inCategory.
  destruct (Items.category item) as [ic |].
  - rewrite andb_true_iff, String.eqb_eq, trim_lower, truthy_true. split.
    + intros [_ H]. exists ic. now split.
    + intros [ic' [E H]]. injection E as <-. split; [| exact H].
      intros ->. simpl in H. symmetry in H.
      apply Hc. exact (proj1 (toLowerCase_empty _) H).
  - split; [discriminate | intros [ic [E _]]; discriminate].
Qed.

(** C10. For a query category that is not empty once trimmed, the filter
    keeps, in their order, exactly the items that have a category whose
    lowercased value is the lowercased, trimmed query category; an item
    without a category, or with an empty one, is dropped; and so is an item
    whose stored category starts or ends with white space, whatever the
    query category. *)
Theorem category_filter_keeps (data : list Items.Item) (c : string) :
  JS.trim c <> "" ->
  exists keep : Items.Item -> bool,
    Items.filterCategory data (Some c) = filter keep data /\
    (forall item, keep item = true <-> Spec.inCategory c item) /\
    (forall item,
        Items.category item = None \/ Items.category item = Some "" ->
        keep item = false) /\
    (forall item stored,
        Items.category item = Some stored ->
        Spec.startsWithSpace stored = true \/ Spec.endsWithSpace stored = true ->
        keep item = false).
Proof.
  intro Hc. exists (Items.categoryMatches c). split; [| split; [| split]].
  - unfold Items.filterCategory.
    assert (Hne : c <> "") by (intros ->; now apply Hc).
    apply truthy_true in Hne. apply String.eqb_neq in Hc.
    now rewrite Hne, Hc.
  - intro item. now apply categoryMatches_spec.
  - intros item [E | E]; unfold Items.categoryMatches; rewrite E; reflexivity.
  - intros item stored E Hsp.
    destruct (Items.categoryMatches c item) eqn:K; [| reflexivity].
    apply (categoryMatches_spec c item Hc) in K.
    destruct K as [ic [E' H]]. rewrite E in E'. injection E' as <-.
    destruct (trim_no_outer_space c) as [Hs He].
    rewrite <- lower_startsWithSpace, <- H, lower_startsWithSpace in Hs.
    rewrite <- lower_endsWithSpace, <- H, lower_endsWithSpace in He.
    destruct Hsp as [Hsp | Hsp]; congruence.
Qed.

Lemma category_filter_keeps_witness :
  exists keep : Items.Item -> bool,
    Items.filterCategory Sample.mockItems (Some " Electronics ") =
    filter keep Sample.mockItems /\
    keep Sample.item1 = true /\ keep Sample.item2 = false.
Proof.
  destruct (category_filter_keeps Sample.mockItems " Electronics ")
    as [keep [Hf [Hk _]]].
  - vm_compute. discriminate.
  - exists keep. split; [exact Hf | split].
    + apply Hk. exists "electronics". split; reflexivity.
    + destruct (keep Sample.item2) eqn:K; [| reflexivity].
      apply Hk in K. destruct K as [ic [E H]]. injection E as <-. discriminate H.
Defined.

(** ** An absent backing file *)

Lemma narrowed_nil (rq : Items.Query) : Items.narrowed [] rq = [].
Proof.
  unfold Items.narrowed, Items.filterCategory, Items.searchItems.
  destruct (Items.qCategory rq) as [c |]; destruct (Items.q rq) as [s |];
    simpl; repeat match goal with |- context [if ?b then _ else _] => destruct b end;
    reflexivity.
Qed.

Lemma getStats_served (d : FS.disk (list Items.Item)) (t : Stats.clock)
  (c : Stats.cache) (s : Stats.stats) :
  Stats.data c = Some s ->
  Stats.atRoute t - Stats.timestamp c <= Stats.CACHE_TTL ->
  Stats.getStats d t c = Stats.mkOutcome (Ok s) c false.
Proof.
  intros Hd Hage. unfold Stats.getStats, Stats.isCacheValid. rewrite Hd.
  destruct (Z.gtb_spec (Stats.atRoute t - Stats.timestamp c) Stats.CACHE_TTL);
    [lia | reflexivity].
Qed.

Lemma isCacheValid_later (now later : Z) (c : Stats.cache) :
  now <= later -> Stats.isCacheValid now c = false ->
  Stats.isCacheValid later c = false.
Proof.
  unfold Stats.isCacheValid. intros Hle. destruct (Stats.data c); [| reflexivity].
  rewrite !negb_false_iff.
  destruct (Z.gtb_spec (now - Stats.timestamp c) Stats.CACHE_TTL); [| discriminate].
  intros _. destruct (Z.gtb_spec (later - Stats.timestamp c) Stats.CACHE_TTL);
    [reflexivity | lia].
Qed.

(** A request that finds the cache not valid goes through the read. *)
Lemma getStats_refill (d : FS.disk (list Items.Item)) (t : Stats.clock)
  (c : Stats.cache) :
  Stats.isCacheValid (Stats.atRoute t) c = false ->
  Stats.atRoute t <= Stats.atLoad t ->
  Stats.getStats d t c = Stats.refill d t c (Stats.getFileModTime d).
Proof.
  intros Hinv Hle. unfold Stats.getStats. rewrite Hinv.
  unfold Stats.loadAndCacheStats.
  destruct (Stats.data c); [| reflexivity].
  rewrite (isCacheValid_later _ _ c Hle Hinv). now rewrite andb_false_r.
Qed.

(** C8. An absent file is not an error. Reading the collection yields the
    empty sequence when the file is absent, the items when the file holds
    them, and raises the failure for every other failure of the read or of
    the parse, and for nothing else; GET /api/items on an absent file, or on
    an empty one (a file that holds the empty array, as in the test suite),
    answers with no items and totalItems 0. In GET /api/stats the read of an
    absent file, whatever the cache holds, answers total 0 and averagePrice 0
    and stores them with the time of the fill; a request that finds the cache
    not valid (nothing cached, or older than five minutes) does that read;
    and every request of the next five minutes is served the stored value
    without a read. The read that meets another failure raises it and leaves
    the cache as it was. *)
Theorem absent_file_is_not_an_error :
  (forall d, FS.file d = FS.ENOENT -> Items.readData d = Ok []) /\
  (forall d items, FS.file d = FS.Parsed items -> Items.readData d = Ok items) /\
  (forall d m,
      FS.file d = FS.IOError m \/ FS.file d = FS.SyntaxError m ->
      Items.readData d = Throw (Error None m)) /\
  (forall d e, Items.readData d = Throw e ->
               FS.file d = FS.IOError (message e) \/
               FS.file d = FS.SyntaxError (message e)) /\
  (forall d rq,
      FS.file d = FS.ENOENT \/ FS.file d = FS.Parsed [] ->
      exists r, Items.getItems d rq = Ok r /\
                Items.items (Items.page r) = [] /\
                Items.totalItems (Items.pagination (Items.page r)) = 0) /\
  (forall d t c,
      FS.file d = FS.ENOENT ->
      let none := Stats.mkStats 0 0%Q in
      let filled := Stats.mkCache (Some none) (Stats.atFill t) (Stats.fileModTime c) in
      Stats.refill d t c (Stats.getFileModTime d) = Stats.mkOutcome (Ok none) filled true /\
      (Stats.isCacheValid (Stats.atRoute t) c = false ->
       Stats.atRoute t <= Stats.atLoad t ->
       Stats.getStats d t c = Stats.mkOutcome (Ok none) filled true) /\
      (forall d' t',
         Stats.atRoute t' - Stats.atFill t <= Stats.CACHE_TTL ->
         Stats.getStats d' t' filled = Stats.mkOutcome (Ok none) filled false)) /\
  (forall d t c m,
      FS.file d = FS.IOError m \/ FS.file d = FS.SyntaxError m ->
      let failed := Stats.mkOutcome (Throw (Error None m)) c true in
      Stats.refill d t c (Stats.getFileModTime d) = failed /\
      (Stats.isCacheValid (Stats.atRoute t) c = false ->
       Stats.atRoute t <= Stats.atLoad t ->
       Stats.getStats d t c = failed)).
Proof.
  repeat apply conj.
  - intros d H. unfold Items.readData. now rewrite H.
  - intros d items H. unfold Items.readData. now rewrite H.
  - intros d m [H | H]; unfold Items.readData; now rewrite H.
  - intros d e. unfold Items.readData.
    destruct (FS.file d) as [| m | m |]; try discriminate;
      intro H; injection H as <-; simpl; auto.
  - intros d rq H.
    assert (Hread : Items.readData d = Ok []).
    { unfold Items.readData. destruct H as [H | H]; now rewrite H. }
    eexists. split; [apply getItems_total, Hread |].
    cbv zeta. rewrite narrowed_nil.
    change (Items.sortItems [] _ _) with (@nil Items.Item).
    unfold Items.paginateItems. cbn [Items.page Items.items Items.pagination
      Items.totalItems List.length]. split; [| reflexivity].
    unfold JS.slice. now rewrite skipn_nil, firstn_nil.
  - intros d t c Hfile none filled.
    assert (E : Stats.refill d t c (Stats.getFileModTime d)
                = Stats.mkOutcome (Ok none) filled true).
    { unfold Stats.refill. now rewrite Hfile. }
    split; [exact E |]. split.
    + intros Hinv Hle. now rewrite (getStats_refill d t c Hinv Hle).
    + intros d' t' Hage. now apply getStats_served.
  - intros d t c m Hfile failed.
    assert (E : Stats.refill d t c (Stats.getFileModTime d) = failed).
    { unfold Stats.refill. destruct Hfile as [H | H]; now rewrite H. }
    split; [exact E |].
    intros Hinv Hle. now rewrite (getStats_refill d t c Hinv Hle).
Qed.

Lemma absent_file_is_not_an_error_witness :
  Items.readData Sample.absent = Ok [] /\
  Stats.getStats Sample.absent (Stats.mkClock 400000 400001 400002) Sample.filledCache
  = Stats.mkOutcome (Ok (Stats.mkStats 0 0%Q))
      (Stats.mkCache (Some (Stats.mkStats 0 0%Q)) 400002 10) true /\
  Stats.getStats Sample.unreadable (Stats.mkClock 5 5 5) Stats.emptyCache
  = Stats.mkOutcome (Throw (Error None "EACCES: permission denied"))
      Stats.emptyCache true.
Proof.
  destruct absent_file_is_not_an_error as [H1 [_ [_ [_ [_ [H6 H7]]]]]].
  split; [| split].
  - apply H1. reflexivity.
  - apply (H6 Sample.absent (Stats.mkClock 400000 400001 400002) Sample.filledCache).
    + reflexivity.
    + reflexivity.
    + simpl. lia.
  - apply (H7 Sample.unreadable (Stats.mkClock 5 5 5) Stats.emptyCache).
    + left. reflexivity.
    + reflexivity.
    + simpl. lia.
Defined.

(** ** The stats cache and a modified file *)

(** C2. The route serves the cached value on the age of the cache alone.
    At the input below the cache was filled at time 1000 from a file
    modified at time 10; at time 2000, well within the five minutes, the file
    carries the modification time 20 and three items. The route answers with
    the cached value (one item) and does not read the file, although
    [loadAndCacheStats], had it been called, would have seen the change and
    read the file. A cache exactly five minutes old is served too. *)
Theorem stale_stats_served_after_file_change :
  let now := Stats.mkClock 2000 2000 2000 in
  Stats.fileModTime Sample.filledCache <> Stats.getFileModTime Sample.modifiedFile /\
  Stats.getStats Sample.modifiedFile now Sample.filledCache =
    Stats.mkOutcome (Ok (Stats.mkStats 1 (5 # 1))) Sample.filledCache false /\
  Stats.fileRead (Stats.loadAndCacheStats Sample.modifiedFile now Sample.filledCache)
    = true /\
  Stats.total (Stats.calculateStats Sample.mockItems) = 3 /\
  (let atLimit := 1000 + Stats.CACHE_TTL in
   Stats.fileRead
     (Stats.getStats Sample.modifiedFile (Stats.mkClock atLimit atLimit atLimit)
        Sample.filledCache) = false).
Proof.
  cbv zeta. split; [| split; [| split; [| split]]].
  - vm_compute. discriminate.
  - apply getStats_served; [reflexivity | vm_compute; discriminate].
  - reflexivity.
  - reflexivity.
  - reflexivity.
Qed.

(** ** Creating an item *)

(** C5. The router registers no route for POST: a request to create an item,
    whatever the file, the query and the payload, is not handled by any route
    of the file, nothing is written, and the item of the integration test is
    not found when it is fetched by its id afterwards. *)
Theorem create_is_not_routed :
  (forall d query payload,
      Items.router d (Items.mkRequest Items.POST [] query payload) = None) /\
  Items.router (Sample.readable Sample.mockItems)
    (Items.mkRequest Items.GET ["1234567890"] Sample.noQuery None) =
  Some (Throw (Error (Some 404) "Item not found")).
Proof. split; [intros d query payload |]; reflexivity. Qed.

(** ** The comparator of the sort *)

Lemma getField_no_mix (a b : Items.Item) (field : string) :
  match Items.getField a field, Items.getField b field with
  | Items.VStr _, Items.VNum _ => False
  | Items.VNum _, Items.VStr _ => False
  | _, _ => True
  end.
Proof.
  unfold Items.getField.
  repeat match goal with
         | |- context [String.eqb field ?s] => destruct (String.eqb field s)
         end;
    repeat match goal with
           | |- context [match ?o with Some _ => _ | None => _ end] => destruct o
           end; exact I.
Qed.

Lemma sortItems_unrecognized (items : list Items.Item) (sortBy sortOrder : string) :
  existsb (String.eqb sortBy) Items.validSortFields = false ->
  Items.sortItems items sortBy sortOrder = Items.sortItems items "id" sortOrder.
Proof. intro H. unfold Items.sortItems. now rewrite H. Qed.

Lemma compareItems_desc (field : string) (a b : Items.Item) :
  Items.compareItems field "desc" a b = - Items.compareItems field "asc" a b.
Proof.
  unfold Items.compareItems.
  destruct (Items.lowerOperands _ _) as [x y].
  destruct (Items.lessThan x y); [reflexivity |].
  destruct (Items.lessThan y x); reflexivity.
Qed.

(** C7. The comparator treats a missing value as the empty string only when
    it is the second operand. With one item of category "x" and one item
    without a category, sorted by category in ascending order: the item with
    the category is placed after the other one when it is compared first,
    but the two are reported equal when the item without a category is
    compared first; so the sort leaves either arrangement of the two items as
    it finds it, and the item without a category does not come first. *)
Theorem missing_value_is_not_the_empty_string :
  Items.compareItems "category" "asc" Sample.shelved Sample.unshelved = 1 /\
  Items.compareItems "category" "asc" Sample.unshelved Sample.shelved = 0 /\
  Items.sortItems [Sample.unshelved; Sample.shelved] "category" "asc" =
    [Sample.unshelved; Sample.shelved] /\
  Items.sortItems [Sample.shelved; Sample.unshelved] "category" "asc" =
    [Sample.shelved; Sample.unshelved].
Proof. repeat split. Qed.

(** ** GET /api/items/:id *)

(** C4, as stated, fails twice. A path segment that is not an integer but
    starts with one is read as that integer: "1.5" fetches item 1 and
    "12abc" is reported as not found. And the collection is read before the
    segment is looked at: with a file that cannot be read, the segment "abc"
    is answered with the error of the read, which the error handler turns
    into a 500. *)
Lemma invalid_id_not_always_400 :
  Spec.isInteger "1.5" = false /\
  Items.getItemById (Sample.readable Sample.mockItems) "1.5" = Ok Sample.item1 /\
  Spec.isInteger "12abc" = false /\
  Items.getItemById (Sample.readable Sample.mockItems) "12abc" =
    Throw (Error (Some 404) "Item not found") /\
  Spec.isInteger "abc" = false /\
  (exists e, Items.getItemById Sample.unreadable "abc" = Throw e /\
             httpStatus e = 500 /\ message e <> "Invalid item ID").
Proof.
  repeat split.
  eexists. split; [reflexivity |]. split; [reflexivity | discriminate].
Qed.

Lemma find_none_iff (data : list Items.Item) (n : Z) :
  find (fun i => Items.id i =? n) data = None <->
  forall item, In item data -> Items.id item <> n.
Proof.
  split.
  - intros H item Hin E.
    apply (find_none _ _ H) in Hin. simpl in Hin. lia.
  - intro H. induction data as [| x r IH]; [reflexivity |]. simpl.
    destruct (Z.eqb_spec (Items.id x) n) as [E | _].
    + exfalso. apply (H x); [now left | exact E].
    + apply IH. intros item Hin. apply H. now right.
Qed.

(** C4, amended. When the collection can be read (an absent file counting
    as an empty collection): a path segment in which [parseInt] finds no
    number is answered with status 400 and the message "Invalid item ID"; a
    segment in which it finds a number that is the id of no item is answered
    with status 404 and the message "Item not found"; and a segment in which
    it finds the id of an item is answered with the first such item. *)
Theorem item_by_id_answers (d : FS.disk (list Items.Item))
  (data : list Items.Item) (idParam : string) :
  Items.readData d = Ok data ->
  (JS.parseInt idParam = None ->
   exists e, Items.getItemById d idParam = Throw e /\
             httpStatus e = 400 /\ message e = "Invalid item ID") /\
  (forall n, JS.parseInt idParam = Some n ->
             (forall item, In item data -> Items.id item <> n) ->
             exists e, Items.getItemById d idParam = Throw e /\
                       httpStatus e = 404 /\ message e = "Item not found") /\
  (forall n item, JS.parseInt idParam = Some n ->
                  find (fun i => Items.id i =? n) data = Some item ->
                  Items.getItemById d idParam = Ok item).
Proof.
  intro Hread. unfold Items.getItemById. rewrite Hread. simpl.
  split; [| split].
  - intros ->. eexists. repeat split.
  - intros n -> Hno. apply find_none_iff in Hno. rewrite Hno.
    eexists. repeat split.
  - intros n item -> Hfind. now rewrite Hfind.
Qed.

Lemma item_by_id_answers_witness :
  (exists e, Items.getItemById (Sample.readable Sample.mockItems) "abc" = Throw e /\
             httpStatus e = 400 /\ message e = "Invalid item ID") /\
  (exists e, Items.getItemById (Sample.readable Sample.mockItems) "999" = Throw e /\
             httpStatus e = 404 /\ message e = "Item not found").
Proof.
  split.
  - apply (proj1 (item_by_id_answers (Sample.readable Sample.mockItems)
                    Sample.mockItems "abc" eq_refl)).
    reflexivity.
  - apply (proj1 (proj2 (item_by_id_answers (Sample.readable Sample.mockItems)
                           Sample.mockItems "999" eq_refl)) 999).
    + reflexivity.
    + intros item [<- | [<- | [<- | []]]]; discriminate.
Defined.

(** ** The statistics *)

Lemma calculateStats_total (items : list Items.Item) :
  StatsDouble.total (StatsDouble.calculateStats items) = Z.of_nat (List.length items).
Proof.
  unfold StatsDouble.calculateStats.
  destruct (Z.eqb_spec (Z.of_nat (List.length items)) 0) as [E | _]; simpl;
    [now rewrite E | reflexivity].
Qed.

(** The sample of the test suite: 10.99, 25.50 and 5.00 average to 13.83. *)
Example calculateStats_sample :
  StatsDouble.calculateStats Sample.mockItems =
  StatsDouble.mkStats 3 (Double.ofDecimal (JS.Dec 1383 2)).
Proof. vm_compute. reflexivity. Qed.

(** Where the cent is lost: the prices 1.00 and 1.01 have the mean 1.005,
    but their sum in doubles is the double of 2.01, which is below 2.01, and
    a hundred times its half is below 100.5, which [Math.round] takes down
    to 100. *)
Example product_below_the_tie :
  let totalPrice :=
    (StatsDouble.priceOf Sample.dollar + StatsDouble.priceOf Sample.dollarAndCent)%float in
  totalPrice = Double.ofDecimal (JS.Dec 201 2) /\
  (exists x, Double.toQ totalPrice = Some x /\ x < 201 # 100)%Q /\
  PrimFloat.ltb (totalPrice / 2 * 100) 100.5 = true /\
  Double.round (totalPrice / 2 * 100) = 100%float.
Proof.
  cbv zeta. split; [vm_compute; reflexivity |].
  split; [eexists; split; [vm_compute; reflexivity | reflexivity] |].
  split; vm_compute; reflexivity.
Qed.

(** C9. The total is the number of items and no item at all gives the
    average 0, but the average is not always the mean rounded to two decimal
    places: for two items priced 1.00 and 1.01 the program answers 1, where
    the mean 1.005 rounded with a tie going away from zero is 1.01. The mean
    of the two doubles that the program holds for the prices is even above
    1.005, so that 1.01 is the answer for every rule on ties. *)
Theorem average_misses_the_cent :
  let items := [Sample.dollar; Sample.dollarAndCent] in
  let s := StatsDouble.calculateStats items in
  (forall l, StatsDouble.total (StatsDouble.calculateStats l) = Z.of_nat (List.length l)) /\
  StatsDouble.calculateStats [] = StatsDouble.mkStats 0 0%float /\
  StatsDouble.total s = 2 /\
  StatsDouble.averagePrice s = 1%float /\
  Double.toQ (StatsDouble.averagePrice s) = Some (1 # 1)%Q /\
  (Spec.averagePrice (map Spec.priceOrZero items) == 101 # 100)%Q /\
  (1005 # 1000 < Spec.mean (map Spec.storedPrice items))%Q /\
  (Spec.averagePrice (map Spec.storedPrice items) == 101 # 100)%Q.
Proof.
  cbv zeta. split; [exact calculateStats_total |].
  repeat split; vm_compute; reflexivity.
Qed.

(** ** The client-side mirror *)


Lemma filter_comm {A : Type} (f g : A -> bool) (l : list A) :
  filter f (filter g l) = filter g (filter f l).
Proof.
  induction l as [| x r IH]; simpl; [reflexivity |].
  destruct (f x) eqn:F, (g x) eqn:G; simpl; rewrite ?F, ?G, IH; reflexivity.
Qed.






Lemma filterCategory_search (l : list Items.Item) (c q : option string) :
  Items.filterCategory (Items.searchItems l q) c =
  Items.searchItems (Items.filterCategory l c) q.
Proof.
  unfold Items.filterCategory, Items.searchItems.
  destruct c as [c |]; [| reflexivity].
  destruct (JS.truthy c && negb (String.eqb (JS.trim c) "")); [| reflexivity].
  destruct q as [q |]; [| reflexivity].
  destruct (negb (JS.truthy q) || String.eqb (JS.trim q) ""); [reflexivity |].
  apply filter_comm.
Qed.




(** * Further properties of the code *)

(** ** Printing and parsing an integer *)

Lemma readDigits_uint (d : Decimal.uint) (acc : Z) :
  JS.readDigits 10 (Some acc) (NilEmpty.string_of_uint d) = Some (uintValue d acc).
Proof.
  revert acc; induction d; intro acc; simpl; try reflexivity; apply IHd.
Qed.

Lemma readDigits_start (d : Decimal.uint) :
  d <> Decimal.Nil ->
  JS.readDigits 10 None (NilEmpty.string_of_uint d) = Some (uintValue d 0).
Proof.
  destruct d; intro H; try (now contradiction H); simpl; apply readDigits_uint.
Qed.

Lemma uintValue_acc (d : Decimal.uint) (acc : positive) :
  uintValue d (Z.pos acc) = Z.pos (Pos.of_uint_acc d acc).
Proof.
  revert acc; induction d; intro acc; cbn [uintValue Pos.of_uint_acc];
    try reflexivity;
    match goal with
    | |- uintValue _ ?z = Z.pos (Pos.of_uint_acc _ ?p) =>
        replace z with (Z.pos p) by lia; apply IHd
    end.
Qed.

Lemma uintValue_zero (d : Decimal.uint) :
  uintValue d 0 = Z.of_N (Pos.of_uint d).
Proof.
  induction d; cbn [uintValue Pos.of_uint Z.of_N]; try reflexivity;
    try exact IHd;
    match goal with
    | |- uintValue _ ?z = Z.pos (Pos.of_uint_acc _ ?p) =>
        change z with (Z.pos p); apply uintValue_acc
    end.
Qed.

(** The digits never look like a hexadecimal prefix, a sign or a space. *)
Lemma parseInt_digits (d : Decimal.uint) :
  d <> Decimal.Nil ->
  JS.parseInt (NilEmpty.string_of_uint d) = Some (uintValue d 0) /\
  JS.parseInt (String "-" (NilEmpty.string_of_uint d)) = Some (- uintValue d 0).
Proof.
  intro H. pose proof (readDigits_start d H) as R.
  assert (E : forall s, s = NilEmpty.string_of_uint d ->
              match s with
              | String "0" (String "x" r) => JS.readDigits 16 None r
              | String "0" (String "X" r) => JS.readDigits 16 None r
              | _ => JS.readDigits 10 None s
              end = JS.readDigits 10 None s).
  { intros s ->. destruct d as [| d' | d' | d' | d' | d' | d' | d' | d' | d' | d'];
      try reflexivity. destruct d'; reflexivity. }
  assert (T : JS.trimStart (NilEmpty.string_of_uint d) = NilEmpty.string_of_uint d).
  { destruct d; reflexivity. }
  assert (S : forall s, s = NilEmpty.string_of_uint d ->
              match s with
              | String "-" r => (-1, r)
              | String "+" r => (1, r)
              | _ => (1, s)
              end = (1, s)).
  { intros s ->. destruct d; reflexivity. }
  split.
  - unfold JS.parseInt. rewrite T, (S _ eq_refl), (E _ eq_refl), R.
    cbn [option_map]. apply f_equal. lia.
  - unfold JS.parseInt. cbn [JS.trimStart].
    change (JS.isWhiteSpace "-") with false. cbv iota.
    rewrite (E _ eq_refl), R. cbn [option_map]. apply f_equal. lia.
Qed.

Lemma string_of_uint_nonnil (d : Decimal.uint) :
  d <> Decimal.Nil -> NilZero.string_of_uint d = NilEmpty.string_of_uint d.
Proof. destruct d; intro H; [now contradiction H | reflexivity ..]. Qed.

(** An integer written out by [toString] is read back by [parseInt]. *)
Lemma parseInt_intToString (z : Z) : JS.parseInt (JS.intToString z) = Some z.
Proof.
  unfold JS.intToString, Z.to_int. destruct z as [| p | p].
  - reflexivity.
  - pose proof (Unsigned.to_uint_nonnil p) as Hn.
    cbn [NilZero.string_of_int]. rewrite (string_of_uint_nonnil _ Hn).
    rewrite (proj1 (parseInt_digits _ Hn)), uintValue_zero, Unsigned.of_to.
    reflexivity.
  - pose proof (Unsigned.to_uint_nonnil p) as Hn.
    cbn [NilZero.string_of_int]. rewrite (string_of_uint_nonnil _ Hn).
    rewrite (proj2 (parseInt_digits _ Hn)), uintValue_zero, Unsigned.of_to.
    reflexivity.
Qed.

(** ** The sort on a consistent comparator *)

Section SortedInsertion.

Context {A : Type} (cmp : A -> A -> Z) (le : A -> A -> Prop).

Hypothesis before_le : forall x y, (cmp x y <? 0) = true -> le x y.
Hypothesis not_before_le : forall x y, (cmp x y <? 0) = false -> le y x.
Hypothesis le_trans : forall x y z, le x y -> le y z -> le x z.

Lemma insert_sorted (x : A) (l : list A) :
  StronglySorted le l -> StronglySorted le (JS.insert cmp x l).
Proof.
  induction 1 as [| y r Hr IH Hy]; simpl.
  - constructor; constructor.
  - destruct (cmp x y <? 0) eqn:E.
    + constructor; [constructor; assumption |].
      constructor; [now apply before_le |].
      apply Forall_impl with (P := le y); [| exact Hy].
      intros z Hz. apply le_trans with y; [now apply before_le | exact Hz].
    + constructor; [exact IH |].
      apply (Permutation_Forall (Permutation_sym (insert_perm cmp x r))).
      constructor; [now apply not_before_le | exact Hy].
Qed.

Lemma sort_sorted (l : list A) : StronglySorted le (JS.sort cmp l).
Proof.
  unfold JS.sort.
  assert (H : forall acc, StronglySorted le acc ->
                StronglySorted le (fold_left (fun a x => JS.insert cmp x a) l acc)).
  { induction l as [| x r IH]; intros acc Hacc; simpl; [exact Hacc |].
    apply IH, insert_sorted, Hacc. }
  apply H. constructor.
Qed.

End SortedInsertion.

Lemma filter_nothing {A : Type} (f : A -> bool) (l : list A) :
  (forall x, In x l -> f x = false) -> filter f l = [].
Proof.
  induction l as [| x r IH]; intro H; simpl; [reflexivity |].
  rewrite (H x (or_introl eq_refl)). apply IH. intros z Hz. apply H. now right.
Qed.

Section KeyedSort.

Context {A : Type} (cmp : A -> A -> Z) (key : A -> Z).

Hypothesis cmp_key : forall x y, (cmp x y <? 0) = (key x <? key y).

Let byKey (a b : A) : Prop := key a <= key b.

Lemma keyed_sorted (l : list A) : StronglySorted byKey (JS.sort cmp l).
Proof.
  apply sort_sorted; unfold byKey.
  - intros x y H. rewrite cmp_key in H. lia.
  - intros x y H. rewrite cmp_key in H. lia.
  - intros x y z. lia.
Qed.

Lemma keyed_insert_filter (v : Z) (x : A) (l : list A) :
  StronglySorted byKey l ->
  filter (fun a => key a =? v) (JS.insert cmp x l) =
  (filter (fun a => key a =? v) l ++ (if key x =? v then [x] else []))%list.
Proof.
  induction 1 as [| y r Hr IH Hy]; simpl.
  - destruct (key x =? v); reflexivity.
  - rewrite cmp_key. destruct (Z.ltb_spec (key x) (key y)) as [Hlt | Hge].
    + simpl. destruct (Z.eqb_spec (key x) v) as [Ex | Nx].
      * assert (Hnone : filter (fun a => key a =? v) (y :: r) = []).
        { apply filter_nothing. intros z Hin.
          assert (key y <= key z).
          { destruct Hin as [<- | Hin]; [lia |].
            exact (proj1 (Forall_forall _ _) Hy z Hin). }
          apply Z.eqb_neq. lia. }
        simpl in Hnone. rewrite Hnone. reflexivity.
      * now rewrite app_nil_r.
    + simpl. rewrite IH. destruct (key y =? v); reflexivity.
Qed.

Lemma keyed_stable (v : Z) (l : list A) :
  filter (fun a => key a =? v) (JS.sort cmp l) = filter (fun a => key a =? v) l.
Proof.
  unfold JS.sort.
  assert (H : forall acc, StronglySorted byKey acc ->
                filter (fun a => key a =? v)
                       (fold_left (fun a x => JS.insert cmp x a) l acc) =
                (filter (fun a => key a =? v) acc ++
                 filter (fun a => key a =? v) l)%list).
  { induction l as [| x r IH]; intros acc Hacc; simpl.
    - now rewrite app_nil_r.
    - rewrite IH.
      + rewrite keyed_insert_filter by exact Hacc. rewrite <- app_assoc.
        destruct (key x =? v); reflexivity.
      + apply insert_sorted with (le := byKey); unfold byKey; try exact Hacc.
        * intros a b E. rewrite cmp_key in E. lia.
        * intros a b E. rewrite cmp_key in E. lia.
        * intros a b c. lia. }
  apply (H [] (SSorted_nil _)).
Qed.

End KeyedSort.

Lemma compareItems_id (order : string) (a b : Items.Item) :
  (Items.compareItems "id" order a b <? 0) =
  (if String.eqb order "asc" then Items.id a <? Items.id b
   else Items.id b <? Items.id a).
Proof.
  unfold Items.compareItems. cbn [Items.getField String.eqb Ascii.eqb Bool.eqb
    andb Items.lowerOperands Items.lessThan].
  unfold JS.decLt, JS.ofZ. cbn [JS.mant JS.scale Z.of_nat Z.pow Z.pow_pos
    Pos.iter Z.mul Pos.mul].
  rewrite !Z.mul_1_r.
  destruct (String.eqb order "asc");
    destruct (Z.ltb_spec (Items.id a) (Items.id b));
    destruct (Z.ltb_spec (Items.id b) (Items.id a)); try reflexivity; lia.
Qed.

(** X1. Sorting never drops, duplicates or invents an item: whatever the
    sort field and the order, the result holds the items given, each as many
    times. *)
Theorem sortItems_keeps_the_items (items : list Items.Item)
  (sortBy sortOrder : string) :
  Permutation (Items.sortItems items sortBy sortOrder) items /\
  List.length (Items.sortItems items sortBy sortOrder) = List.length items.
Proof. split; [apply sort_perm | apply sort_length]. Qed.

(** X2. Sorted by id (asked for, or taken because the sort field is not a
    recognized one), the items come in non-decreasing order of id, or in
    non-increasing order when the sort order is "desc" in any letter case;
    and items of the same id keep the order they had: the descending order is
    not the ascending one reversed. *)
Theorem sortItems_by_id_is_ordered_and_stable (items : list Items.Item)
  (sortBy sortOrder : string) :
  sortBy = "id" \/ existsb (String.eqb sortBy) Items.validSortFields = false ->
  let sorted := Items.sortItems items sortBy sortOrder in
  let desc := String.eqb (JS.toLowerCase sortOrder) "desc" in
  StronglySorted
    (fun a b => if desc then Items.id b <= Items.id a else Items.id a <= Items.id b)
    sorted /\
  forall v, filter (fun a => Items.id a =? v) sorted =
            filter (fun a => Items.id a =? v) items.
Proof.
  intros Hfield. cbv zeta.
  assert (E : Items.sortItems items sortBy sortOrder =
              Items.sortItems items "id" sortOrder).
  { destruct Hfield as [-> | H]; [reflexivity | now apply sortItems_unrecognized]. }
  rewrite E. unfold Items.sortItems. cbn [existsb Items.validSortFields String.eqb
    Ascii.eqb Bool.eqb andb orb].
  destruct (String.eqb (JS.toLowerCase sortOrder) "desc").
  - split.
    + apply (sort_sorted (Items.compareItems "id" "desc")
               (fun a b => Items.id b <= Items.id a)).
      * intros x y H. rewrite compareItems_id in H. simpl in H. lia.
      * intros x y H. rewrite compareItems_id in H. simpl in H. lia.
      * intros x y z. lia.
    + intro v.
      pose proof (keyed_stable (Items.compareItems "id" "desc")
                    (fun a => - Items.id a)) as S.
      assert (Hk : forall x y,
                 (Items.compareItems "id" "desc" x y <? 0) =
                 (- Items.id x <? - Items.id y)).
      { intros x y. rewrite compareItems_id. simpl.
        destruct (Z.ltb_spec (Items.id y) (Items.id x));
          destruct (Z.ltb_spec (- Items.id x) (- Items.id y)); try reflexivity; lia. }
      specialize (S Hk (- v) items).
      assert (F : forall l : list Items.Item,
                 filter (fun a => - Items.id a =? - v) l =
                 filter (fun a => Items.id a =? v) l).
      { intro l. apply filter_ext. intro a.
        destruct (Z.eqb_spec (- Items.id a) (- v));
          destruct (Z.eqb_spec (Items.id a) v); try reflexivity; lia. }
      now rewrite !F in S.
  - split.
    + apply (keyed_sorted (Items.compareItems "id" "asc") Items.id).
      intros x y. now rewrite compareItems_id.
    + intro v.
      apply (keyed_stable (Items.compareItems "id" "asc") Items.id).
      intros x y. now rewrite compareItems_id.
Qed.

Lemma sortItems_by_id_is_ordered_and_stable_witness :
  StronglySorted (fun a b => Items.id b <= Items.id a)
    (Items.sortItems Sample.mockItems "id" "DESC").
Proof.
  exact (proj1 (sortItems_by_id_is_ordered_and_stable Sample.mockItems "id" "DESC"
                  (or_introl eq_refl))).
Defined.

Lemma filter_true_all {A : Type} (l : list A) : filter (fun _ => true) l = l.
Proof. induction l as [| x r IH]; simpl; [| rewrite IH]; reflexivity. Qed.

(** ** Pages *)

Lemma firstn_add {A : Type} (a b : nat) (l : list A) :
  firstn (a + b) l = (firstn a l ++ firstn b (skipn a l))%list.
Proof.
  revert l; induction a as [| a IH]; intro l; simpl; [reflexivity |].
  destruct l as [| x r]; simpl.
  - now rewrite firstn_nil.
  - now rewrite IH.
Qed.

Lemma windows_concat {A : Type} (size count : nat) (l : list A) :
  List.concat (map (fun j => firstn size (skipn (j * size) l)) (seq 0 count)) =
  firstn (count * size) l.
Proof.
  induction count as [| n IH]; [reflexivity |].
  rewrite seq_S, map_app, concat_app, IH. simpl.
  rewrite app_nil_r. symmetry. rewrite Nat.add_comm. apply firstn_add.
Qed.

Lemma page_of_number (items : list Items.Item) (k : Z) (limit : option string) :
  1 <= k ->
  Items.items (Items.paginateItems items (Some (JS.intToString k)) limit) =
  firstn (Z.to_nat (Spec.effectiveLimit limit))
         (skipn (Z.to_nat ((k - 1) * Spec.effectiveLimit limit)) items).
Proof.
  intro Hk. unfold Items.paginateItems. cbn [Items.items].
  rewrite effectiveLimit_code. unfold Items.parseParam.
  rewrite parseInt_intToString.
  pose proof (effectiveLimit_range limit) as HL.
  replace (Z.max 1 (JS.orDefault (Some k) 1)) with k
    by (destruct k; simpl; lia).
  apply slice_window; nia.
Qed.

(** X3. The pages of a list, from the first to the last one that the
    metadata announces, put one after the other, give back the list: every
    item is on one page, in its place, and none is shown twice. *)
Theorem pages_cover_the_list (items : list Items.Item) (limit : option string) :
  let last := Items.totalPages (Items.pagination (Items.paginateItems items None limit)) in
  List.concat (map (fun k =>
                 Items.items
                   (Items.paginateItems items (Some (JS.intToString (Z.of_nat k))) limit))
              (seq 1 (Z.to_nat last))) = items.
Proof.
  cbv zeta.
  assert (ET : Items.totalPages (Items.pagination (Items.paginateItems items None limit))
               = JS.ceilDiv (Z.of_nat (List.length items)) (Spec.effectiveLimit limit)).
  { unfold Items.paginateItems. cbn [Items.pagination Items.totalPages].
    now rewrite effectiveLimit_code. }
  rewrite ET. clear ET.
  pose proof (effectiveLimit_range limit) as HL.
  set (L := Spec.effectiveLimit limit) in *.
  pose proof (ceilDiv_spec (Z.of_nat (List.length items)) L ltac:(lia)) as HT.
  set (T := JS.ceilDiv (Z.of_nat (List.length items)) L) in *.
  assert (HT0 : 0 <= T) by nia.
  rewrite <- seq_shift, map_map.
  rewrite map_ext with
    (g := fun j => firstn (Z.to_nat L) (skipn (j * Z.to_nat L) items)).
  - rewrite windows_concat. apply firstn_all2.
    rewrite <- Z2Nat.inj_mul by lia. lia.
  - intro j. rewrite page_of_number by lia. fold L. do 2 f_equal.
    replace (Z.of_nat (S j) - 1) with (Z.of_nat j) by lia.
    rewrite Z2Nat.inj_mul by lia. now rewrite Nat2Z.id.
Qed.

(** X4. The links of a page say what is there: hasNextPage holds exactly
    when items remain after the window of the page, nextPage is then the
    page number plus one and is absent otherwise; hasPrevPage holds exactly
    when the page is not the first, prevPage is then the page number minus
    one; and a page that has a next page is not the last one. *)
Theorem pagination_links (items : list Items.Item) (page limit : option string) :
  let pg := Items.pagination (Items.paginateItems items page limit) in
  let P := Items.currentPage pg in
  let L := Items.itemsPerPage pg in
  let N := Z.of_nat (List.length items) in
  Items.hasNextPage pg = (P * L <? N) /\
  Items.nextPage pg = (if P * L <? N then Some (P + 1) else None) /\
  Items.hasPrevPage pg = (1 <? P) /\
  Items.prevPage pg = (if 1 <? P then Some (P - 1) else None) /\
  (Items.hasNextPage pg = true -> P + 1 <= Items.totalPages pg) /\
  (N = 0 -> Items.totalPages pg = 0 /\ Items.hasNextPage pg = false).
Proof.
  cbv zeta. unfold Items.paginateItems.
  cbn [Items.pagination Items.currentPage Items.itemsPerPage Items.hasNextPage
       Items.nextPage Items.hasPrevPage Items.prevPage Items.totalPages].
  rewrite effectiveLimit_code, effectivePage_code.
  pose proof (effectiveLimit_range limit) as HL.
  pose proof (effectivePage_range page) as HP.
  set (L := Spec.effectiveLimit limit) in *.
  set (P := Spec.effectivePage page) in *.
  pose proof (ceilDiv_spec (Z.of_nat (List.length items)) L ltac:(lia)) as HT.
  set (T := JS.ceilDiv (Z.of_nat (List.length items)) L) in *.
  assert (E : (P <? T) = (P * L <? Z.of_nat (List.length items))).
  { destruct (Z.ltb_spec P T); destruct (Z.ltb_spec (P * L) (Z.of_nat (List.length items)));
      try reflexivity; nia. }
  assert (G : (P >? 1) = (1 <? P)) by (rewrite Z.gtb_ltb; reflexivity).
  rewrite E, G. repeat split.
  - intro H. apply Z.ltb_lt in H. nia.
  - nia.
  - apply Z.ltb_ge. nia.
Qed.

(** ** Categories *)

Lemma unique_spec (seen xs : list string) :
  NoDup (Items.unique seen xs) /\
  forall x, In x (Items.unique seen xs) <-> In x xs /\ ~ In x seen.
Proof.
  revert seen; induction xs as [| x r IH]; intro seen; simpl.
  - split; [constructor | intro y; tauto].
  - destruct (existsb (String.eqb x) seen) eqn:E.
    + destruct (IH seen) as [Hnd Hin]. split; [exact Hnd |].
      apply existsb_exists in E. destruct E as [y [Hy Exy]].
      apply String.eqb_eq in Exy. subst y.
      intro z. rewrite Hin. split; [tauto |].
      intros [[<- | Hz] Hn]; [contradiction | tauto].
    + destruct (IH (x :: seen)) as [Hnd Hin].
      assert (Hx : ~ In x seen).
      { intro Hx. assert (existsb (String.eqb x) seen = true); [| congruence].
        apply existsb_exists. exists x. split; [exact Hx | apply String.eqb_refl]. }
      split.
      * constructor; [| exact Hnd]. rewrite Hin. simpl. tauto.
      * intro z. simpl. rewrite Hin. simpl. split.
        -- intros [<- | [Hz Hn]]; [tauto |]. split; tauto.
        -- intros [[<- | Hz] Hn]; [tauto |].
           destruct (string_dec x z) as [-> | Hne]; [tauto |]. right. tauto.
Qed.

(** X5. The categories route lists every category that an item carries and
    that is not empty once trimmed, each one once, and nothing else; total is
    the number of categories listed. *)
Theorem categories_listed (d : FS.disk (list Items.Item)) (data : list Items.Item) :
  Items.readData d = Ok data ->
  exists categories,
    Items.getCategories d = Ok (categories, Z.of_nat (List.length categories)) /\
    NoDup categories /\
    forall c, In c categories <->
              JS.trim c <> "" /\
              exists item, In item data /\ Items.category item = Some c.
Proof.
  intro Hread. unfold Items.getCategories. rewrite Hread. cbn [bind].
  eexists. split; [reflexivity |].
  set (named := flat_map _ data).
  destruct (unique_spec [] named) as [Hnd Hin].
  split.
  - apply (Permutation_NoDup (Permutation_sym (sort_perm _ _)) Hnd).
  - intro c. split.
    + intro H. apply (Permutation_in _ (sort_perm _ _)) in H.
      apply Hin in H. destruct H as [H _]. unfold named in H.
      apply in_flat_map in H. destruct H as [item [Hitem Hc]].
      destruct (Items.category item) as [ic |] eqn:E; [| contradiction].
      destruct (JS.truthy ic && negb (String.eqb (JS.trim ic) "")) eqn:K;
        [| contradiction].
      destruct Hc as [<- | []]. apply andb_true_iff in K. destruct K as [_ K].
      apply negb_true_iff, String.eqb_neq in K. split; [exact K |].
      exists item. now split.
    + intros [Htrim [item [Hitem E]]].
      apply (Permutation_in _ (Permutation_sym (sort_perm _ _))).
      apply Hin. split; [| tauto]. unfold named. apply in_flat_map.
      exists item. split; [exact Hitem |]. rewrite E.
      assert (Hne : c <> "") by (intros ->; now apply Htrim).
      apply truthy_true in Hne. apply String.eqb_neq in Htrim.
      rewrite Hne, Htrim. now left.
Qed.

Lemma categories_listed_witness :
  exists categories,
    Items.getCategories (Sample.readable Sample.mockItems) =
      Ok (categories, Z.of_nat (List.length categories)) /\
    NoDup categories /\ In "books" categories.
Proof.
  destruct (categories_listed (Sample.readable Sample.mockItems) Sample.mockItems
              eq_refl) as [cats [H [Hnd Hin]]].
  exists cats. split; [exact H | split; [exact Hnd |]].
  apply Hin. split; [vm_compute; discriminate |].
  exists Sample.item2. split; [right; now left | reflexivity].
Defined.

(** ** An item and its link *)

(** X6. When ids are not shared, an item of the collection whose id is an
    integer that a double holds exactly (at most 2^53 - 1 in absolute value,
    so that it is written out digit by digit) is what the item route answers
    for the id of the item written out, which is the path the pages of the
    client request for it. *)
Theorem item_found_by_its_id (d : FS.disk (list Items.Item))
  (data : list Items.Item) (item : Items.Item) :
  Items.readData d = Ok data ->
  In item data ->
  Z.abs (Items.id item) <= 2 ^ 53 - 1 ->
  (forall other, In other data -> Items.id other = Items.id item -> other = item) ->
  Items.getItemById d (JS.intToString (Items.id item)) = Ok item.
Proof.
  intros Hread Hin _ Huniq. unfold Items.getItemById. rewrite Hread. cbn [bind].
  rewrite parseInt_intToString.
  destruct (find (fun i => Items.id i =? Items.id item) data) as [found |] eqn:F.
  - apply find_some in F. destruct F as [Hf Hid]. apply Z.eqb_eq in Hid.
    now rewrite (Huniq found Hf Hid).
  - exfalso. apply (find_none _ _ F) in Hin. simpl in Hin. lia.
Qed.

Lemma item_found_by_its_id_witness :
  Items.getItemById (Sample.readable Sample.mockItems) "2" = Ok Sample.item2.
Proof.
  apply (item_found_by_its_id (Sample.readable Sample.mockItems) Sample.mockItems
           Sample.item2 eq_refl).
  - right. now left.
  - vm_compute. discriminate.
  - intros other [<- | [<- | [<- | []]]] E; try reflexivity; discriminate E.
Defined.

(** X7. The item route answers only with an item of the collection, and
    only with one whose id is the number read from the path segment: it
    never answers with another item, whatever follows the digits. *)
Theorem item_answer_is_sound (d : FS.disk (list Items.Item)) (idParam : string)
  (item : Items.Item) :
  Items.getItemById d idParam = Ok item ->
  JS.parseInt idParam = Some (Items.id item) /\
  exists data, Items.readData d = Ok data /\ In item data.
Proof.
  unfold Items.getItemById. destruct (Items.readData d) as [data | e];
    cbn [bind]; [| discriminate].
  destruct (JS.parseInt idParam) as [n |]; [| discriminate].
  destruct (find (fun i => Items.id i =? n) data) as [found |] eqn:F;
    [| discriminate].
  intro H. injection H as <-. apply find_some in F. destruct F as [Hin Hid].
  apply Z.eqb_eq in Hid. split; [now rewrite Hid |]. now exists data.
Qed.

Lemma item_answer_is_sound_witness :
  JS.parseInt "3 for 2" = Some (Items.id Sample.item3).
Proof.
  exact (proj1 (item_answer_is_sound (Sample.readable Sample.mockItems) "3 for 2"
                  Sample.item3 eq_refl)).
Defined.

(** ** Narrowing *)

Lemma filter_idem {A : Type} (f : A -> bool) (l : list A) :
  filter f (filter f l) = filter f l.
Proof.
  induction l as [| x r IH]; simpl; [reflexivity |].
  destruct (f x) eqn:E; simpl; rewrite ?E, IH; reflexivity.
Qed.

Lemma filter_shorter {A : Type} (f : A -> bool) (l : list A) :
  (List.length (filter f l) <= List.length l)%nat.
Proof. induction l as [| x r IH]; simpl; [| destruct (f x); simpl]; lia. Qed.

(** X8. Searching and filtering by category only narrow: the two steps can
    be taken in either order, searching a second time for the same query
    changes nothing, and the list the route sorts and counts is never longer
    than the collection and holds only items of the collection. *)
Theorem narrowing_steps (data : list Items.Item) (rq : Items.Query)
  (q c : option string) :
  Items.filterCategory (Items.searchItems data q) c =
    Items.searchItems (Items.filterCategory data c) q /\
  Items.searchItems (Items.searchItems data q) q = Items.searchItems data q /\
  (List.length (Items.narrowed data rq) <= List.length data)%nat /\
  (forall item, In item (Items.narrowed data rq) -> In item data).
Proof.
  split; [apply filterCategory_search |]. split.
  - unfold Items.searchItems. destruct q as [s |]; [| reflexivity].
    destruct (negb (JS.truthy s) || String.eqb (JS.trim s) ""); [reflexivity |].
    apply filter_idem.
  - assert (H : exists f g, Items.narrowed data rq = filter f (filter g data)).
    { unfold Items.narrowed, Items.filterCategory, Items.searchItems.
      destruct (Items.qCategory rq) as [cat |].
      - destruct (JS.truthy cat && negb (String.eqb (JS.trim cat) "")).
        + destruct (Items.q rq) as [s |].
          * destruct (JS.truthy s); simpl.
            -- destruct (String.eqb (JS.trim s) "").
               ++ exists (fun _ => true), (Items.categoryMatches cat).
                  symmetry. apply filter_true_all.
               ++ eexists; eexists; reflexivity.
            -- exists (fun _ => true), (Items.categoryMatches cat).
               symmetry. apply filter_true_all.
          * exists (fun _ => true), (Items.categoryMatches cat).
            symmetry. apply filter_true_all.
        + destruct (Items.q rq) as [s |].
          * destruct (JS.truthy s); simpl.
            -- destruct (String.eqb (JS.trim s) "").
               ++ exists (fun _ => true), (fun _ => true).
                  now rewrite !filter_true_all.
               ++ eexists; exists (fun _ => true).
                  now rewrite (filter_true_all data).
            -- exists (fun _ => true), (fun _ => true).
               now rewrite !filter_true_all.
          * exists (fun _ => true), (fun _ => true). now rewrite !filter_true_all.
      - destruct (Items.q rq) as [s |].
        + destruct (JS.truthy s); simpl.
          * destruct (String.eqb (JS.trim s) "").
            -- exists (fun _ => true), (fun _ => true).
               now rewrite !filter_true_all.
            -- eexists; exists (fun _ => true).
               now rewrite (filter_true_all data).
          * exists (fun _ => true), (fun _ => true). now rewrite !filter_true_all.
        + exists (fun _ => true), (fun _ => true). now rewrite !filter_true_all. }
    destruct H as [f [g ->]]. split.
    + pose proof (filter_shorter f (filter g data)).
      pose proof (filter_shorter g data). lia.
    + intros item Hin. apply filter_In in Hin. destruct Hin as [Hin _].
      apply filter_In in Hin. tauto.
Qed.

(** ** The order of strings *)

Lemma string_compare_lt_trans (a b c : string) :
  String.compare a b = Lt -> String.compare b c = Lt -> String.compare a c = Lt.
Proof.
  revert b c; induction a as [| x a IH]; intros [| y b] [| z c]; simpl;
    try discriminate; try reflexivity.
  unfold Ascii.compare.
  destruct (N.compare_spec (N_of_ascii x) (N_of_ascii y)) as [Exy | Lxy | Gxy];
    try discriminate;
    destruct (N.compare_spec (N_of_ascii y) (N_of_ascii z)) as [Eyz | Lyz | Gyz];
    try discriminate;
    destruct (N.compare_spec (N_of_ascii x) (N_of_ascii z)) as [Exz | Lxz | Gxz];
    try reflexivity; try lia.
  apply IH.
Qed.

Lemma string_ltb_leb (a b : string) : String.ltb a b = true -> String.leb a b = true.
Proof. unfold String.ltb, String.leb. destruct (String.compare a b); easy. Qed.

Lemma string_not_ltb_leb (a b : string) :
  String.ltb a b = false -> String.leb b a = true.
Proof.
  unfold String.ltb, String.leb. rewrite (String.compare_antisym b a).
  destruct (String.compare a b); simpl; easy.
Qed.

Lemma string_leb_trans (a b c : string) :
  String.leb a b = true -> String.leb b c = true -> String.leb a c = true.
Proof.
  unfold String.leb.
  destruct (String.compare a b) eqn:Eab; try discriminate;
    destruct (String.compare b c) eqn:Ebc; try discriminate; intros _ _.
  - apply String.compare_eq_iff in Eab. subst b. now rewrite Ebc.
  - apply String.compare_eq_iff in Eab. subst b. now rewrite Ebc.
  - apply String.compare_eq_iff in Ebc. subst c. now rewrite Eab.
  - now rewrite (string_compare_lt_trans a b c Eab Ebc).
Qed.

(** X9. The categories are listed in the order of their code units, each
    one strictly before the next. *)
Theorem categories_in_order (d : FS.disk (list Items.Item))
  (categories : list string) (total : Z) :
  Items.getCategories d = Ok (categories, total) ->
  StronglySorted (fun a b => String.ltb a b = true) categories.
Proof.
  unfold Items.getCategories. destruct (Items.readData d) as [data | e];
    cbn [bind]; [| discriminate].
  intro H. injection H as <- _.
  set (named := flat_map _ data).
  assert (Hs : StronglySorted (fun a b => String.leb a b = true)
                 (JS.sort Items.compareStrings (Items.unique [] named))).
  { apply sort_sorted.
    - intros x y E. apply string_ltb_leb. unfold Items.compareStrings in E.
      destruct (String.ltb x y); [reflexivity |].
      destruct (String.ltb y x); discriminate.
    - intros x y E. apply string_not_ltb_leb. unfold Items.compareStrings in E.
      destruct (String.ltb x y); [discriminate | reflexivity].
    - apply string_leb_trans. }
  assert (Hnd : NoDup (JS.sort Items.compareStrings (Items.unique [] named))).
  { apply (Permutation_NoDup (Permutation_sym (sort_perm _ _))).
    apply unique_spec. }
  revert Hs Hnd. generalize (JS.sort Items.compareStrings (Items.unique [] named)).
  induction 1 as [| a r Hr IH Ha]; intro Hnd; constructor.
  - apply IH. now inversion Hnd.
  - inversion Hnd as [| ? ? Hnotin _]; subst.
    apply Forall_forall. intros b Hb.
    pose proof (proj1 (Forall_forall _ _) Ha b Hb) as Hle.
    unfold String.leb in Hle. unfold String.ltb.
    destruct (String.compare a b) eqn:E; try reflexivity; try discriminate.
    apply String.compare_eq_iff in E. subst b. contradiction.
Qed.

Lemma categories_in_order_witness :
  StronglySorted (fun a b => String.ltb a b = true) ["books"; "electronics"].
Proof.
  exact (categories_in_order (Sample.readable Sample.mockItems)
           ["books"; "electronics"] 2 eq_refl).
Defined.

Lemma compareItems_name (order : string) (a b : Items.Item) :
  (Items.compareItems "name" order a b <? 0) =
  (if String.eqb order "asc"
   then String.ltb (JS.toLowerCase (Items.name a)) (JS.toLowerCase (Items.name b))
   else String.ltb (JS.toLowerCase (Items.name b)) (JS.toLowerCase (Items.name a))).
Proof.
  unfold Items.compareItems. cbn [Items.getField String.eqb Ascii.eqb Bool.eqb
    andb Items.lowerOperands].
  assert (E : (if JS.truthy (Items.name b)
               then Items.VStr (JS.toLowerCase (Items.name b))
               else Items.VStr "") = Items.VStr (JS.toLowerCase (Items.name b))).
  { destruct (JS.truthy (Items.name b)) eqn:T; [reflexivity |].
    apply truthy_false in T. now rewrite T. }
  rewrite E. cbn [Items.lessThan].
  set (x := JS.toLowerCase (Items.name a)). set (y := JS.toLowerCase (Items.name b)).
  unfold String.ltb. rewrite (String.compare_antisym y x).
  destruct (String.eqb order "asc"); destruct (String.compare x y); reflexivity.
Qed.

(** X10. Sorted by name, the items come in the order of their names with
    the letter case ignored: non-decreasing, or non-increasing when the sort
    order is "desc" in any letter case. *)
Theorem sortItems_by_name_is_ordered (items : list Items.Item) (sortOrder : string) :
  let sorted := Items.sortItems items "name" sortOrder in
  let key item := JS.toLowerCase (Items.name item) in
  let desc := String.eqb (JS.toLowerCase sortOrder) "desc" in
  StronglySorted
    (fun a b => if desc then String.leb (key b) (key a) = true
                else String.leb (key a) (key b) = true)
    sorted.
Proof.
  cbv zeta. unfold Items.sortItems. cbn [existsb Items.validSortFields String.eqb
    Ascii.eqb Bool.eqb andb orb].
  destruct (String.eqb (JS.toLowerCase sortOrder) "desc").
  - apply sort_sorted.
    + intros x y E. rewrite compareItems_name in E. now apply string_ltb_leb.
    + intros x y E. rewrite compareItems_name in E. now apply string_not_ltb_leb.
    + intros x y z H1 H2. exact (string_leb_trans _ _ _ H2 H1).
  - apply sort_sorted.
    + intros x y E. rewrite compareItems_name in E. now apply string_ltb_leb.
    + intros x y E. rewrite compareItems_name in E. now apply string_not_ltb_leb.
    + intros x y z. apply string_leb_trans.
Qed.

(** ** The stats cache over several requests *)

Lemma refill_reads (d : FS.disk (list Items.Item)) (t : Stats.clock)
  (c : Stats.cache) (m : Z) :
  Stats.fileRead (Stats.refill d t c m) = true.
Proof. unfold Stats.refill. destruct (FS.file d); reflexivity. Qed.

(** A request that finds the cache not valid skips the read exactly on the
    second test, made on the cache as it is by then. *)
Lemma read_skipped_iff (d : FS.disk (list Items.Item)) (t : Stats.clock)
  (s : StatsAwait.snapshots) :
  Stats.isCacheValid (Stats.atRoute t) (StatsAwait.onArrival s) = false ->
  (Stats.fileRead (StatsAwait.getStats d t s) = false <->
   Stats.fileModTime (StatsAwait.afterStat s) = Stats.getFileModTime d /\
   Stats.isCacheValid (Stats.atLoad t) (StatsAwait.afterStat s) = true).
Proof.
  unfold StatsAwait.getStats. intro V. rewrite V.
  unfold StatsAwait.loadAndCacheStats.
  destruct (Stats.data (StatsAwait.afterStat s)) as [x |] eqn:E.
  - destruct (Z.eqb_spec (Stats.fileModTime (StatsAwait.afterStat s))
                (Stats.getFileModTime d)) as [M | M].
    + destruct (Stats.isCacheValid (Stats.atLoad t) (StatsAwait.afterStat s)) eqn:W;
        cbn [andb Stats.fileRead].
      * split; [intros _; now split | reflexivity].
      * rewrite refill_reads. split; [discriminate | intros [_ H]; discriminate H].
    + cbn [andb]. rewrite refill_reads.
      split; [discriminate | intros [H _]; now contradiction M].
  - rewrite refill_reads. split; [discriminate |].
    unfold Stats.isCacheValid. rewrite E. intros [_ H]. discriminate H.
Qed.

(** X11. After the route that deletes the cache, the cache is the empty one
    of the start, the status route reports nothing cached, and the next stats
    request reads the file, whatever the clock and the file, when it is
    handled alone, and among other requests unless one of them has filled the
    cache by the time the modification time of the file is known. *)
Theorem invalidation_forces_a_read (c : Stats.cache) (d : FS.disk (list Items.Item))
  (t : Stats.clock) (now nowValid : Z) (later latest : Stats.cache) :
  let emptied := snd (StatsRoutes.deleteCache c) in
  emptied = Stats.emptyCache /\
  StatsRoutes.getCacheStatus now nowValid emptied =
    StatsRoutes.mkCacheStatus false 0 false None /\
  Stats.getStats d t emptied = Stats.refill d t emptied (Stats.getFileModTime d) /\
  Stats.fileRead (Stats.getStats d t emptied) = true /\
  (Stats.fileRead
     (StatsAwait.getStats d t (StatsAwait.mkSnapshots emptied later latest)) = false
   <-> Stats.fileModTime later = Stats.getFileModTime d /\
       Stats.isCacheValid (Stats.atLoad t) later = true).
Proof.
  cbv zeta. split; [reflexivity |]. split; [reflexivity |].
  split; [reflexivity |]. split; [apply refill_reads |].
  apply (read_skipped_iff d t
           (StatsAwait.mkSnapshots (snd (StatsRoutes.deleteCache c)) later latest)).
  reflexivity.
Qed.

Lemma invalidation_forces_a_read_witness :
  Stats.fileRead
    (StatsAwait.getStats Sample.modifiedFile (Stats.mkClock 1000 1010 1020)
       (StatsAwait.mkSnapshots (snd (StatsRoutes.deleteCache Sample.filledCache))
          (Stats.mkCache (Some (Stats.mkStats 3 (1383 # 100))) 1005 20)
          (Stats.mkCache (Some (Stats.mkStats 3 (1383 # 100))) 1005 20))) = false.
Proof.
  apply (proj2 (proj2 (proj2 (proj2
           (invalidation_forces_a_read Sample.filledCache Sample.modifiedFile
              (Stats.mkClock 1000 1010 1020) 0 0
              (Stats.mkCache (Some (Stats.mkStats 3 (1383 # 100))) 1005 20)
              (Stats.mkCache (Some (Stats.mkStats 3 (1383 # 100))) 1005 20)))))).
  split; reflexivity.
Defined.

(** A request arrives at an empty cache while the read of another request
    is under way; that one fills the cache before this one has the
    modification time of the file: this one is served without a read, though
    the cache was not valid when it arrived. *)
Example served_from_a_refill_in_flight :
  let filled := Stats.mkCache (Some (Stats.calculateStats Sample.mockItems)) 1005 20 in
  Stats.isCacheValid 1000 Stats.emptyCache = false /\
  StatsAwait.getStats Sample.modifiedFile (Stats.mkClock 1000 1010 1020)
    (StatsAwait.mkSnapshots Stats.emptyCache filled filled) =
  Stats.mkOutcome (Ok (Stats.calculateStats Sample.mockItems)) filled false.
Proof. cbv zeta. split; reflexivity. Qed.

(** X12. A stats request among others. A cache that is valid when the
    request arrives is served without a read. A request that finds it not
    valid skips the read exactly when the cache, as it is once the
    modification time of the file is known, holds a value filled for that
    modification time and not older than five minutes: this is another
    request's refill, for with a clock that does not run backwards it cannot
    be the cache found on arrival. So a request that no other one interferes
    with reads the file exactly when the status route would report the cache
    as not valid at its arrival: handled alone, the comparison of
    modification times never saves a read and never causes one. *)
Theorem read_exactly_when_not_valid (d : FS.disk (list Items.Item))
  (t : Stats.clock) (s : StatsAwait.snapshots) (now : Z) :
  let o := StatsAwait.getStats d t s in
  let valid := Stats.isCacheValid (Stats.atRoute t) (StatsAwait.onArrival s) in
  (valid = true -> Stats.fileRead o = false) /\
  (valid = false ->
   (Stats.fileRead o = false <->
    Stats.fileModTime (StatsAwait.afterStat s) = Stats.getFileModTime d /\
    Stats.isCacheValid (Stats.atLoad t) (StatsAwait.afterStat s) = true)) /\
  (Stats.atRoute t <= Stats.atLoad t ->
   valid = false -> Stats.fileRead o = false ->
   StatsAwait.afterStat s <> StatsAwait.onArrival s) /\
  (Stats.atRoute t <= Stats.atLoad t ->
   StatsAwait.afterStat s = StatsAwait.onArrival s ->
   Stats.fileRead o =
   negb (StatsRoutes.cacheValid
           (StatsRoutes.getCacheStatus now (Stats.atRoute t) (StatsAwait.onArrival s)))) /\
  (forall c,
     StatsAwait.getStats d t (StatsAwait.alone c) = Stats.getStats d t c /\
     (Stats.atRoute t <= Stats.atLoad t ->
      Stats.fileRead (StatsAwait.getStats d t (StatsAwait.alone c)) =
      negb (StatsRoutes.cacheValid
              (StatsRoutes.getCacheStatus now (Stats.atRoute t) c)))).
Proof.
  cbv zeta.
  assert (Hserved : Stats.isCacheValid (Stats.atRoute t) (StatsAwait.onArrival s) = true ->
                    Stats.fileRead (StatsAwait.getStats d t s) = false).
  { unfold StatsAwait.getStats. intro V. rewrite V.
    unfold Stats.isCacheValid in V.
    destruct (Stats.data (StatsAwait.onArrival s)); [reflexivity | discriminate V]. }
  assert (Hother : Stats.atRoute t <= Stats.atLoad t ->
            Stats.isCacheValid (Stats.atRoute t) (StatsAwait.onArrival s) = false ->
            Stats.fileRead (StatsAwait.getStats d t s) = false ->
            StatsAwait.afterStat s <> StatsAwait.onArrival s).
  { intros Hclock V Hno Hsame. apply (read_skipped_iff d t s V) in Hno.
    destruct Hno as [_ W]. rewrite Hsame in W.
    rewrite (isCacheValid_later _ _ _ Hclock V) in W. discriminate W. }
  split; [exact Hserved |]. split; [apply read_skipped_iff |].
  split; [exact Hother |]. split.
  - intros Hclock Hsame. unfold StatsRoutes.getCacheStatus.
    cbn [StatsRoutes.cacheValid].
    destruct (Stats.isCacheValid (Stats.atRoute t) (StatsAwait.onArrival s)) eqn:V.
    + now apply Hserved.
    + destruct (Stats.fileRead (StatsAwait.getStats d t s)) eqn:F; [reflexivity |].
      exfalso. now apply (Hother Hclock eq_refl eq_refl).
  - intro c. split; [reflexivity |]. intro Hclock.
    change (StatsAwait.getStats d t (StatsAwait.alone c)) with (Stats.getStats d t c).
    unfold StatsRoutes.getCacheStatus. cbn [StatsRoutes.cacheValid].
    unfold Stats.getStats, Stats.loadAndCacheStats.
    destruct (Stats.isCacheValid (Stats.atRoute t) c) eqn:V.
    + unfold Stats.isCacheValid in V.
      destruct (Stats.data c); [reflexivity | discriminate V].
    + rewrite (isCacheValid_later _ _ _ Hclock V), andb_false_r.
      destruct (Stats.data c); apply refill_reads.
Qed.

Lemma read_exactly_when_not_valid_witness :
  Stats.fileRead
    (StatsAwait.getStats Sample.modifiedFile (Stats.mkClock 400000 400001 400002)
       (StatsAwait.alone Sample.filledCache)) = true.
Proof.
  destruct (read_exactly_when_not_valid Sample.modifiedFile
              (Stats.mkClock 400000 400001 400002)
              (StatsAwait.alone Sample.filledCache) 0) as [_ [_ [_ [H _]]]].
  rewrite H.
  - reflexivity.
  - simpl. lia.
  - reflexivity.
Defined.

(** X13. An answer is remembered and an error is not: after a request that
    was answered with stats, every request that arrives no later than five
    minutes after the timestamp of the cache gets the same stats without a
    read, whatever the file has become; after a request that raised an error
    the cache is what it was before. *)
Theorem answers_are_remembered (d : FS.disk (list Items.Item)) (t : Stats.clock)
  (c : Stats.cache) :
  let after := Stats.cacheAfter (Stats.getStats d t c) in
  (forall s, Stats.answer (Stats.getStats d t c) = Ok s ->
     forall d' t',
       Stats.atRoute t' - Stats.timestamp after <= Stats.CACHE_TTL ->
       Stats.getStats d' t' after = Stats.mkOutcome (Ok s) after false) /\
  (forall e, Stats.answer (Stats.getStats d t c) = Throw e -> after = c).
Proof.
  cbv zeta.
  assert (H : (exists s, Stats.getStats d t c = Stats.mkOutcome (Ok s) c false /\
                         Stats.data c = Some s) \/
              Stats.getStats d t c = Stats.refill d t c (Stats.getFileModTime d)).
  { unfold Stats.getStats, Stats.loadAndCacheStats.
    destruct (Stats.data c) as [s |] eqn:E.
    - destruct (Stats.isCacheValid (Stats.atRoute t) c).
      + left. exists s. now split.
      + destruct ((Stats.fileModTime c =? Stats.getFileModTime d) &&
                  Stats.isCacheValid (Stats.atLoad t) c).
        * left. exists s. now split.
        * now right.
    - right. now destruct (Stats.isCacheValid (Stats.atRoute t) c). }
  destruct H as [[s [-> Hs]] | ->].
  - split.
    + intros s' E d' t' Hage. injection E as <-. now apply getStats_served.
    + intros e E. discriminate E.
  - unfold Stats.refill. destruct (FS.file d) as [| m | m | items];
      cbn [Stats.answer Stats.cacheAfter]; split;
      try (intros s E; discriminate E); try (intros e E; discriminate E);
      try reflexivity.
    + intros s E d' t' Hage. injection E as <-. now apply getStats_served.
    + intros s E d' t' Hage. injection E as <-. now apply getStats_served.
Qed.

Lemma answers_are_remembered_witness :
  Stats.getStats Sample.unreadable (Stats.mkClock 5000 5000 5000)
    (Stats.cacheAfter
       (Stats.getStats (Sample.readable Sample.mockItems) (Stats.mkClock 10 10 10)
          Stats.emptyCache)) =
  Stats.mkOutcome (Ok (Stats.calculateStats Sample.mockItems))
    (Stats.cacheAfter
       (Stats.getStats (Sample.readable Sample.mockItems) (Stats.mkClock 10 10 10)
          Stats.emptyCache)) false.
Proof.
  apply (proj1 (answers_are_remembered (Sample.readable Sample.mockItems)
                  (Stats.mkClock 10 10 10) Stats.emptyCache)).
  - reflexivity.
  - vm_compute. discriminate.
Defined.

(** ** The pagination component *)

Lemma rangeList_In (a b x : Z) :
  In x (PaginationView.rangeList a b) <-> a <= x <= b.
Proof.
  unfold PaginationView.rangeList. rewrite in_map_iff. split.
  - intros [i [<- Hi]]. apply in_seq in Hi. lia.
  - intro H. exists (Z.to_nat (x - a)). split; [lia |]. apply in_seq. lia.
Qed.

Lemma rangeList_sorted (a b : Z) : StronglySorted Z.lt (PaginationView.rangeList a b).
Proof.
  unfold PaginationView.rangeList. generalize (Z.to_nat (b - a + 1)) as n.
  intro n. generalize 0%nat as k. induction n as [| n IH]; intro k; simpl.
  - constructor.
  - constructor; [apply IH |]. apply Forall_forall. intros y Hy.
    apply in_map_iff in Hy. destruct Hy as [i [<- Hi]]. apply in_seq in Hi. lia.
Qed.

Lemma sorted_app {A : Type} (R : A -> A -> Prop) (l1 l2 : list A) :
  StronglySorted R l1 -> StronglySorted R l2 ->
  (forall x y, In x l1 -> In y l2 -> R x y) ->
  StronglySorted R (l1 ++ l2).
Proof.
  induction 1 as [| a r Hr IH Ha]; intros H2 Hx; simpl; [exact H2 |].
  constructor.
  - apply IH; [exact H2 |]. intros x y Hin. apply Hx. now right.
  - apply Forall_app. split; [exact Ha |].
    apply Forall_forall. intros y Hy. apply Hx; [now left | exact Hy].
Qed.

Lemma numbersOf_app (l1 l2 : list PaginationView.entry) :
  PaginationView.numbersOf (l1 ++ l2) =
  (PaginationView.numbersOf l1 ++ PaginationView.numbersOf l2)%list.
Proof. unfold PaginationView.numbersOf. apply flat_map_app. Qed.

Lemma numbersOf_numbers (l : list Z) :
  PaginationView.numbersOf (map PaginationView.Number l) = l.
Proof. induction l as [| x r IH]; simpl; [| rewrite IH]; reflexivity. Qed.

(** X15. For a current page between 1 and the number of pages, the page
    buttons carry numbers that grow strictly from left to right, all between 1
    and the number of pages, and the first page, the current page and the last
    page are among them. *)
Theorem page_buttons (currentPage totalPages : Z) :
  1 <= currentPage <= totalPages ->
  let numbers :=
    PaginationView.numbersOf (PaginationView.pageNumbers currentPage totalPages) in
  StronglySorted Z.lt numbers /\
  (forall n, In n numbers -> 1 <= n <= totalPages) /\
  In 1 numbers /\ In currentPage numbers /\ In totalPages numbers.
Proof.
  intro H. cbv zeta. unfold PaginationView.pageNumbers.
  set (start := Z.max 1 (currentPage - 2)).
  set (stop := Z.min totalPages (currentPage + 2)).
  rewrite !numbersOf_app, numbersOf_numbers.
  set (before := PaginationView.numbersOf _).
  set (after := PaginationView.numbersOf
                  (if stop <? totalPages - 1 then _ else _)).
  assert (Hb : (before = [1] /\ 1 < start) \/ (before = [] /\ start = 1)).
  { unfold before. destruct (Z.gtb_spec start 2).
    - left. split; [| lia]. destruct (start >? 3); reflexivity.
    - destruct (Z.eqb_spec start 2); [left; split; [reflexivity | lia] |].
      right. split; [reflexivity | lia]. }
  assert (Ha : (after = [totalPages] /\ stop < totalPages) \/
               (after = [] /\ stop = totalPages)).
  { unfold after. destruct (Z.ltb_spec stop (totalPages - 1)).
    - left. split; [| lia]. destruct (stop <? totalPages - 2); reflexivity.
    - destruct (Z.eqb_spec stop (totalPages - 1)); [left; split; [reflexivity | lia] |].
      right. split; [reflexivity | lia]. }
  clearbody before after.
  pose proof (rangeList_In start stop) as Hin.
  pose proof (rangeList_sorted start stop) as Hs.
  set (range := PaginationView.rangeList start stop) in *. clearbody range.
  assert (Hcur : In currentPage range) by (apply Hin; lia).
  destruct Hb as [[-> Hb] | [-> Hb]]; destruct Ha as [[-> Ha] | [-> Ha]];
    (split; [| split; [| split; [| split]]]).
  all: try (apply sorted_app;
            [repeat constructor | apply sorted_app; [exact Hs | repeat constructor |] |]).
  all: try (intros x y Hx Hy; repeat rewrite in_app_iff in *; simpl in *;
            rewrite ?Hin in *; lia).
  all: try (intros n Hn; repeat rewrite in_app_iff in *; simpl in *;
            rewrite ?Hin in *; lia).
  all: try (repeat rewrite in_app_iff; simpl; rewrite ?Hin; lia).
  all: try (repeat rewrite in_app_iff; simpl; tauto).
Qed.

Lemma page_buttons_witness :
  In 5 (PaginationView.numbersOf (PaginationView.pageNumbers 5 20)).
Proof.
  apply (page_buttons 5 20). lia.
Defined.

(** X16. On a page that exists, the text "Showing start to end" of the
    component fits the page the server sent: start is the position of the
    first item of the page, and from start to end there are as many positions
    as the page has items. *)
Theorem item_range_fits_the_page (items : list Items.Item) (page limit : option string) :
  let r := Items.paginateItems items page limit in
  let pg := Items.pagination r in
  Items.currentPage pg <= Items.totalPages pg ->
  let '(start, stop) := PaginationView.itemRange pg in
  start = (Items.currentPage pg - 1) * Items.itemsPerPage pg + 1 /\
  1 <= start <= stop /\ stop <= Z.of_nat (List.length items) /\
  stop - start + 1 = Z.of_nat (List.length (Items.items r)).
Proof.
  cbv zeta. unfold PaginationView.itemRange, Items.paginateItems.
  cbn [Items.pagination Items.currentPage Items.itemsPerPage Items.totalItems
       Items.totalPages Items.items].
  rewrite effectiveLimit_code, effectivePage_code.
  pose proof (effectiveLimit_range limit) as HL.
  pose proof (effectivePage_range page) as HP.
  set (L := Spec.effectiveLimit limit) in *.
  set (P := Spec.effectivePage page) in *.
  pose proof (ceilDiv_spec (Z.of_nat (List.length items)) L ltac:(lia)) as HT.
  set (T := JS.ceilDiv (Z.of_nat (List.length items)) L) in *.
  intro Hin.
  rewrite slice_window_length by nia.
  repeat split; nia.
Qed.

Lemma item_range_fits_the_page_witness :
  3 - 3 + 1 =
  Z.of_nat (List.length
              (Items.items (Items.paginateItems Sample.mockItems (Some "2") (Some "2")))).
Proof.
  exact (proj2 (proj2 (proj2
           (item_range_fits_the_page Sample.mockItems (Some "2") (Some "2")
              ltac:(vm_compute; discriminate))))).
Defined.

(** X17. On a page that exists, whatever the user does on the component
    (the four arrows, a page button, the jump field with any text), the page
    it asks for, if it asks for one, exists and is not the page shown. *)
Theorem pager_stays_in_range (items : list Items.Item) (page limit : option string)
  (a : PaginationView.action) (asked : Z) :
  let pg := Items.pagination (Items.paginateItems items page limit) in
  Items.currentPage pg <= Items.totalPages pg ->
  PaginationView.onAction pg a = Some asked ->
  1 <= asked <= Items.totalPages pg /\ asked <> Items.currentPage pg.
Proof.
  cbv zeta. unfold PaginationView.onAction, PaginationView.handleFirst,
    PaginationView.handlePrevious, PaginationView.handleNext,
    PaginationView.handleLast, PaginationView.handlePageClick,
    Items.paginateItems.
  cbn [Items.pagination Items.currentPage Items.itemsPerPage Items.totalItems
       Items.totalPages Items.hasNextPage Items.hasPrevPage].
  rewrite effectiveLimit_code, effectivePage_code.
  pose proof (effectivePage_range page) as HP.
  set (P := Spec.effectivePage page) in *.
  set (T := JS.ceilDiv _ _).
  intros Hin.
  destruct (Z.leb_spec T 1); [discriminate |].
  destruct a as [| | | | n | typed].
  - destruct (Z.eqb_spec P 1); simpl; [discriminate |].
    intro E. injection E as <-. lia.
  - destruct (Z.gtb_spec P 1); [| discriminate].
    intro E. injection E as <-. lia.
  - destruct (Z.ltb_spec P T); [| discriminate].
    intro E. injection E as <-. lia.
  - destruct (Z.eqb_spec P T); simpl; [discriminate |].
    intro E. injection E as <-. lia.
  - destruct (Z.eqb_spec n P); simpl; [discriminate |].
    destruct (Z.geb_spec n 1); simpl; [| discriminate].
    destruct (Z.leb_spec n T); [| discriminate].
    intro E. injection E as <-. lia.
  - destruct (T >? 10); [| discriminate].
    destruct (JS.parseInt typed) as [n |]; [| discriminate].
    destruct (Z.geb_spec n 1); simpl; [| discriminate].
    destruct (Z.leb_spec n T); [| discriminate].
    destruct (Z.eqb_spec n P); simpl; [discriminate |].
    intro E. injection E as <-. lia.
Qed.

Lemma pager_stays_in_range_witness :
  1 <= 2 <= Items.totalPages
             (Items.pagination (Items.paginateItems Sample.mockItems None (Some "2"))).
Proof.
  apply (pager_stays_in_range Sample.mockItems None (Some "2")
           PaginationView.Next 2).
  - vm_compute. discriminate.
  - reflexivity.
Defined.

(** ** The grid of the items page *)

(** X18. In the grid view, for a container of any width in whole pixels:
    there is at least one column; the columns with the gaps of 16 pixels
    between them fit in the width left by the 32 pixels of padding; one column
    more of the minimum width of 280 pixels would not fit; and from a width of
    312 pixels on every column is at least 280 pixels wide. In the list view
    there is one column of the width of the container. *)
Theorem grid_columns_fit (containerWidth : Z) :
  let cfg := ItemsPage.gridConfig containerWidth "grid" in
  let n := ItemsPage.columnCount cfg in
  let w := ItemsPage.columnWidth cfg in
  1 <= n /\ ItemsPage.itemsPerRow cfg = n /\
  n * w + (n - 1) * 16 <= containerWidth - 32 /\
  containerWidth - 32 < (n + 1) * 280 + n * 16 /\
  (312 <= containerWidth -> 280 <= w) /\
  ItemsPage.gridConfig containerWidth "list" =
    ItemsPage.mkGridConfig 1 containerWidth 80 1.
Proof.
  cbv zeta. unfold ItemsPage.gridConfig.
  cbn [String.eqb Ascii.eqb Bool.eqb andb ItemsPage.columnCount
       ItemsPage.columnWidth ItemsPage.itemsPerRow].
  set (a := containerWidth - 32).
  replace (280 + 16) with 296 by reflexivity.
  pose proof (Z.div_mod (a + 16) 296 ltac:(lia)) as D.
  pose proof (Z.mod_pos_bound (a + 16) 296 ltac:(lia)) as B.
  set (q := (a + 16) / 296) in *.
  set (n := Z.max 1 q).
  assert (Hn : 1 <= n) by (unfold n; lia).
  pose proof (Z.div_mod (a - (n - 1) * 16) n ltac:(lia)) as D2.
  pose proof (Z.mod_pos_bound (a - (n - 1) * 16) n ltac:(lia)) as B2.
  set (w := (a - (n - 1) * 16) / n) in *.
  repeat split; try lia.
  intro Hw. unfold n in *. destruct (Z.max_spec 1 q) as [[H E] | [H E]];
    rewrite E in *; nia.
Qed.

(** X19. In the grid and in the list view, every item of the page is drawn
    in one cell of the grid, the cell of row i / columns and column
    i mod columns for the item at position i, which lies within the rows and
    the columns handed to the grid; and two cells within the columns never
    draw the same position. *)
Theorem every_item_has_a_cell (items : list Items.Item) (containerWidth : Z)
  (viewMode : string) (i : nat) (item : Items.Item) :
  viewMode = "grid" \/ viewMode = "list" ->
  nth_error items i = Some item ->
  let cfg := ItemsPage.gridConfig containerWidth viewMode in
  let columns := ItemsPage.columnCount cfg in
  let row := Z.of_nat i / columns in
  let column := Z.of_nat i mod columns in
  0 <= row < ItemsPage.rowCount items cfg /\
  0 <= column < columns /\
  ItemsPage.cellItem items cfg row column = Some item /\
  forall row' column',
    0 <= column' < columns ->
    row' * ItemsPage.itemsPerRow cfg + column' = Z.of_nat i ->
    row' = row /\ column' = column.
Proof.
  intros Hmode Hnth. cbv zeta.
  assert (Hc : ItemsPage.itemsPerRow (ItemsPage.gridConfig containerWidth viewMode)
               = ItemsPage.columnCount (ItemsPage.gridConfig containerWidth viewMode)
               /\ 1 <= ItemsPage.columnCount (ItemsPage.gridConfig containerWidth viewMode)).
  { destruct Hmode as [-> | ->]; unfold ItemsPage.gridConfig;
      cbn [String.eqb Ascii.eqb Bool.eqb andb ItemsPage.columnCount
           ItemsPage.itemsPerRow]; split; try reflexivity; lia. }
  destruct Hc as [Hper Hcols].
  unfold ItemsPage.rowCount, ItemsPage.cellItem. rewrite Hper.
  set (c := ItemsPage.columnCount _) in *.
  assert (Hi : (i < List.length items)%nat).
  { apply nth_error_Some. now rewrite Hnth. }
  pose proof (Z.div_mod (Z.of_nat i) c ltac:(lia)) as D.
  pose proof (Z.mod_pos_bound (Z.of_nat i) c ltac:(lia)) as B.
  pose proof (ceilDiv_spec (Z.of_nat (List.length items)) c ltac:(lia)) as HT.
  set (r := Z.of_nat i / c) in *. set (m := Z.of_nat i mod c) in *.
  assert (Hr : 0 <= r) by (unfold r; apply Z.div_pos; lia).
  split; [| split; [| split]].
  - split; [exact Hr | nia].
  - exact B.
  - replace (r * c + m) with (Z.of_nat i) by lia.
    destruct (Z.ltb_spec (Z.of_nat i) 0); [lia |]. now rewrite Nat2Z.id.
  - intros r' m' Hm' E.
    assert (r' = r) by nia. subst r'. split; [reflexivity | lia].
Qed.

Lemma every_item_has_a_cell_witness :
  ItemsPage.cellItem Sample.mockItems (ItemsPage.gridConfig 700 "grid") 1 0
  = Some Sample.item3.
Proof.
  exact (proj1 (proj2 (proj2
           (every_item_has_a_cell Sample.mockItems 700 "grid" 2 Sample.item3
              (or_introl eq_refl) eq_refl)))).
Defined.

(** ** Suggestions *)

Lemma firstn_NoDup {A : Type} (n : nat) (l : list A) : NoDup l -> NoDup (firstn n l).
Proof.
  intro H. rewrite <- (firstn_skipn n l) in H. now apply NoDup_app_remove_r in H.
Qed.

Lemma firstn_incl {A : Type} (n : nat) (l : list A) (x : A) :
  In x (firstn n l) -> In x l.
Proof.
  intro H. rewrite <- (firstn_skipn n l). apply in_or_app. now left.
Qed.

(** X20. The suggestions the client computes itself are at most ten, none
    twice, each the name or the category of an item it holds and each
    containing the query, whatever the letter case; a query of fewer than two
    characters once trimmed gets none. *)
Theorem suggestions_are_sound (allItems : list Items.Item) (query : string) :
  let suggestions := Suggestions.fallbackSuggestions allItems query in
  (List.length suggestions <= 10)%nat /\
  NoDup suggestions /\
  (forall s, In s suggestions ->
     Spec.contains (JS.toLowerCase s) (JS.toLowerCase query) /\
     exists item, In item allItems /\
                  (Items.name item = s \/ Items.category item = Some s)) /\
  ((String.length (JS.trim query) < 2)%nat -> suggestions = []).
Proof.
  cbv zeta. unfold Suggestions.fallbackSuggestions.
  destruct (negb (JS.truthy query) ||
            (Z.of_nat (String.length (JS.trim query)) <? 2)) eqn:G.
  - split; [simpl; lia |]. split; [apply NoDup_nil |].
    split; [intros x Hx; contradiction | reflexivity].
  - apply orb_false_iff in G. destruct G as [_ G]. apply Z.ltb_ge in G.
    change 10 with (0 + 10) at 1 2 3 4. rewrite slice_window by lia.
    change (Z.to_nat 10) with 10%nat. change (Z.to_nat 0) with 0%nat.
    cbn [skipn]. destruct (unique_spec [] (Suggestions.candidates
                             (JS.toLowerCase query) allItems)) as [Hnd Hin].
    split; [apply firstn_le_length |]. split; [now apply firstn_NoDup |].
    split; [| lia].
    intros s Hs. apply firstn_incl, Hin in Hs. destruct Hs as [Hs _].
    unfold Suggestions.candidates in Hs. apply in_flat_map in Hs.
    destruct Hs as [item [Hitem Hs]]. apply in_app_or in Hs.
    destruct Hs as [Hs | Hs].
    + destruct (JS.truthy (Items.name item) &&
                JS.includes (JS.toLowerCase (Items.name item)) (JS.toLowerCase query))
        eqn:K; [| contradiction].
      destruct Hs as [<- | []]. apply andb_true_iff in K. destruct K as [_ K].
      split; [now apply includes_spec |]. exists item. split; [exact Hitem | now left].
    + destruct (Items.category item) as [c |] eqn:E; [| contradiction].
      destruct (JS.truthy c && JS.includes (JS.toLowerCase c) (JS.toLowerCase query))
        eqn:K; [| contradiction].
      destruct Hs as [<- | []]. apply andb_true_iff in K. destruct K as [_ K].
      split; [now apply includes_spec |]. exists item. split; [exact Hitem | now right].
Qed.

Lemma suggestions_are_sound_witness :
  Suggestions.fallbackSuggestions Sample.mockItems " t " = [].
Proof.
  apply (suggestions_are_sound Sample.mockItems " t "). simpl. lia.
Defined.

(** ** Requests of the client *)

Lemma cancel_length (k : nat) (flags : list bool) :
  List.length (Requests.cancel k flags) = List.length flags.
Proof.
  revert k; induction flags as [| f r IH]; intros [| k]; simpl; auto.
Qed.

Lemma cancel_nth (k j : nat) (flags : list bool) :
  nth j (Requests.cancel k flags) true =
  if Nat.eqb j k then true else nth j flags true.
Proof.
  revert k j; induction flags as [| f r IH]; intros k j.
  - assert (E : Requests.cancel k [] = []) by (destruct k; reflexivity).
    rewrite E. destruct (Nat.eqb j k); destruct j; reflexivity.
  - destruct k as [| k], j as [| j]; simpl; try reflexivity. apply IH.
Qed.

Lemma step_wellFormed (s : Requests.Store) (e : Requests.event) :
  Requests.wellFormed s -> Requests.wellFormed (Requests.step s e).
Proof.
  intro H. destruct e as [| k o |]; unfold Requests.wellFormed; simpl.
  - intros k E. injection E as <-. rewrite length_app. simpl. lia.
  - unfold Requests.settle. destruct (Requests.cancelled k s); [exact H |].
    destruct o; exact H.
  - unfold Requests.cleanup. destruct (Requests.active s); [discriminate | exact H].
Qed.

Lemma run_wellFormed (events : list Requests.event) (s : Requests.Store) :
  Requests.wellFormed s -> Requests.wellFormed (Requests.run events s).
Proof.
  revert s; induction events as [| e r IH]; intros s H; simpl; [exact H |].
  apply IH, step_wellFormed, H.
Qed.

Lemma step_keeps_cancelled (s : Requests.Store) (e : Requests.event) (k : nat) :
  Requests.wellFormed s ->
  (k < List.length (Requests.trackers s))%nat ->
  Requests.cancelled k s = true ->
  (k < List.length (Requests.trackers (Requests.step s e)))%nat /\
  Requests.cancelled k (Requests.step s e) = true.
Proof.
  intros Hwf Hk Hc. unfold Requests.cancelled in *.
  destruct e as [| j o |]; simpl.
  - assert (Hlen : List.length
                     match Requests.active s with
                     | Some a => Requests.cancel a (Requests.trackers s)
                     | None => Requests.trackers s
                     end = List.length (Requests.trackers s)).
    { destruct (Requests.active s); [apply cancel_length | reflexivity]. }
    split; [rewrite length_app; lia |].
    rewrite app_nth1 by lia.
    destruct (Requests.active s) as [a |]; [| exact Hc].
    rewrite cancel_nth, Hc. now destruct (Nat.eqb k a).
  - unfold Requests.settle, Requests.cancelled.
    destruct (nth j (Requests.trackers s) true); [now split |].
    destruct o; now split.
  - unfold Requests.cleanup. destruct (Requests.active s) as [a |]; [| now split].
    simpl. split; [now rewrite cancel_length |].
    rewrite cancel_nth, Hc. now destruct (Nat.eqb k a).
Qed.

Lemma run_keeps_cancelled (events : list Requests.event) (s : Requests.Store)
  (k : nat) :
  Requests.wellFormed s ->
  (k < List.length (Requests.trackers s))%nat ->
  Requests.cancelled k s = true ->
  Requests.cancelled k (Requests.run events s) = true.
Proof.
  revert s; induction events as [| e r IH]; intros s Hwf Hk Hc; simpl; [exact Hc |].
  destruct (step_keeps_cancelled s e k Hwf Hk Hc) as [Hk' Hc'].
  apply IH; [now apply step_wellFormed | exact Hk' | exact Hc'].
Qed.

(** X21. A request that has been replaced by a newer one, or that was in
    flight when the provider was cleaned up, never changes what the provider
    holds: whenever its answer or its error arrives afterwards, after any
    further sequence of requests, answers and cleanups, the items, the
    pagination, the loading flag and the error stay as they are. *)
Theorem superseded_request_is_silent (past later : list Requests.event)
  (k : nat) (o : Requests.settlement) :
  let s := Requests.run past Requests.initial in
  Requests.active s = Some k ->
  (let s' := Requests.run later (snd (Requests.start s)) in
   Requests.settle k o s' = s') /\
  (let s' := Requests.run later (Requests.cleanup s) in
   Requests.settle k o s' = s').
Proof.
  cbv zeta. intro Hact.
  assert (Hwf : Requests.wellFormed (Requests.run past Requests.initial)).
  { apply run_wellFormed. intros j E. discriminate E. }
  set (s := Requests.run past Requests.initial) in *.
  pose proof (Hwf k Hact) as Hk.
  split.
  - assert (Hc : Requests.cancelled k (Requests.run later (snd (Requests.start s)))
                 = true).
    { apply run_keeps_cancelled.
      - apply (step_wellFormed s Requests.Start Hwf).
      - simpl. rewrite Hact, length_app, cancel_length. lia.
      - unfold Requests.cancelled. simpl. rewrite Hact.
        rewrite app_nth1 by (rewrite cancel_length; lia).
        rewrite cancel_nth. now rewrite Nat.eqb_refl. }
    unfold Requests.settle. now rewrite Hc.
  - assert (Hc : Requests.cancelled k (Requests.run later (Requests.cleanup s))
                 = true).
    { apply run_keeps_cancelled.
      - apply (step_wellFormed s Requests.Cleanup Hwf).
      - unfold Requests.cleanup. rewrite Hact. simpl. now rewrite cancel_length.
      - unfold Requests.cancelled, Requests.cleanup. rewrite Hact. simpl.
        rewrite cancel_nth. now rewrite Nat.eqb_refl. }
    unfold Requests.settle. now rewrite Hc.
Qed.

Lemma superseded_request_is_silent_witness :
  let s' := Requests.run [Requests.Start; Requests.Start] Requests.initial in
  Requests.settle 0 (Requests.Failed "HTTP error! status: 500") s' = s'.
Proof.
  exact (proj1 (superseded_request_is_silent [Requests.Start] []
                  0 (Requests.Failed "HTTP error! status: 500") eq_refl)).
Defined.

(** X22. The request started last is the one that is shown: while no other
    request is started and the provider is not cleaned up, its answer, when it
    arrives after any number of late answers of older requests, replaces the
    items and the metadata and ends the loading. *)
Theorem latest_request_is_shown (past : list Requests.event)
  (late : list (nat * Requests.settlement)) (response : Items.ListResponse) :
  let started := Requests.start (Requests.run past Requests.initial) in
  let k := fst started in
  Forall (fun late => fst late <> k) late ->
  let s := Requests.run (map (fun l => Requests.Settle (fst l) (snd l)) late)
             (snd started) in
  let shown := Requests.view (Requests.settle k (Requests.Enhanced response) s) in
  Requests.items shown = Items.items (Items.page response) /\
  Requests.pagination shown = Some (Items.pagination (Items.page response)) /\
  Requests.searchMetadata shown = Some (Items.search response) /\
  Requests.loading shown = false.
Proof.
  cbv zeta. intro Hlate.
  set (s0 := Requests.run past Requests.initial).
  assert (Hk : Requests.cancelled (fst (Requests.start s0)) (snd (Requests.start s0))
               = false /\
               Requests.trackers (snd (Requests.start s0)) =
               Requests.trackers (snd (Requests.start s0))).
  { split; [| reflexivity]. unfold Requests.cancelled, Requests.start. simpl.
    rewrite app_nth2 by lia. now rewrite Nat.sub_diag. }
  destruct Hk as [Hk _].
  set (k := fst (Requests.start s0)) in *.
  assert (Hinv : forall s,
             Requests.cancelled k s = false ->
             Requests.cancelled k
               (Requests.run (map (fun l => Requests.Settle (fst l) (snd l)) late) s)
             = false).
  { clear Hk. induction late as [| [j o] r IH]; intros s Hs; simpl; [exact Hs |].
    apply IH; [now inversion Hlate |].
    unfold Requests.settle. destruct (Requests.cancelled j s); [exact Hs |].
    destruct o; exact Hs. }
  specialize (Hinv _ Hk). unfold Requests.settle. rewrite Hinv.
  repeat split.
Qed.

Lemma latest_request_is_shown_witness :
  Requests.loading
    (Requests.view
       (Requests.settle 1
          (Requests.Enhanced
             (Client.fetchItemsFallback Sample.mockItems Sample.noQuery))
          (Requests.run [Requests.Settle 0 (Requests.Failed "late")]
             (snd (Requests.start
                     (Requests.run [Requests.Start] Requests.initial))))))
  = false.
Proof.
  refine (proj2 (proj2 (proj2
            (latest_request_is_shown [Requests.Start]
               [(0%nat, Requests.Failed "late")]
               (Client.fetchItemsFallback Sample.mockItems Sample.noQuery) _)))).
  repeat constructor. simpl. discriminate.
Defined.

(** ** Following the links of a page *)

(** X23. Following nextPage never leads to an empty page: the page it names,
    asked with the same limit, is that page and holds at least one item. And
    on a page that exists, prevPage names a page that is full. *)
Theorem links_lead_to_items (items : list Items.Item) (page limit : option string)
  (p : Z) :
  let pg := Items.pagination (Items.paginateItems items page limit) in
  (Items.nextPage pg = Some p ->
   let next := Items.paginateItems items (Some (JS.intToString p)) limit in
   Items.currentPage (Items.pagination next) = p /\ Items.items next <> []) /\
  (Items.prevPage pg = Some p ->
   Items.currentPage pg <= Items.totalPages pg ->
   let prev := Items.paginateItems items (Some (JS.intToString p)) limit in
   Items.currentPage (Items.pagination prev) = p /\
   Z.of_nat (List.length (Items.items prev)) = Items.itemsPerPage pg).
Proof.
  cbv zeta.
  assert (Hcur : forall k, 1 <= k ->
            Items.currentPage
              (Items.pagination (Items.paginateItems items (Some (JS.intToString k)) limit))
            = k).
  { intros k Hk. unfold Items.paginateItems, Items.parseParam.
    cbn [Items.pagination Items.currentPage]. rewrite parseInt_intToString.
    destruct k; simpl; lia. }
  assert (Hlen : forall k, 1 <= k ->
            Z.of_nat (List.length
              (Items.items (Items.paginateItems items (Some (JS.intToString k)) limit)))
            = Z.min (Spec.effectiveLimit limit)
                (Z.max 0 (Z.of_nat (List.length items)
                          - (k - 1) * Spec.effectiveLimit limit))).
  { intros k Hk. rewrite page_of_number by exact Hk.
    pose proof (effectiveLimit_range limit).
    rewrite length_firstn, length_skipn. nia. }
  pose proof (effectiveLimit_range limit) as HL.
  pose proof (effectivePage_range page) as HP.
  pose proof (ceilDiv_spec (Z.of_nat (List.length items))
                (Spec.effectiveLimit limit) ltac:(lia)) as HT.
  assert (F : let pg := Items.pagination (Items.paginateItems items page limit) in
              Items.nextPage pg =
                (if Spec.effectivePage page <?
                    JS.ceilDiv (Z.of_nat (List.length items)) (Spec.effectiveLimit limit)
                 then Some (Spec.effectivePage page + 1) else None) /\
              Items.prevPage pg =
                (if Spec.effectivePage page >? 1
                 then Some (Spec.effectivePage page - 1) else None) /\
              Items.currentPage pg = Spec.effectivePage page /\
              Items.totalPages pg =
                JS.ceilDiv (Z.of_nat (List.length items)) (Spec.effectiveLimit limit) /\
              Items.itemsPerPage pg = Spec.effectiveLimit limit).
  { cbv zeta. unfold Items.paginateItems.
    cbn [Items.pagination Items.currentPage Items.itemsPerPage Items.totalPages
         Items.nextPage Items.prevPage].
    rewrite effectiveLimit_code, effectivePage_code. repeat split. }
  cbv zeta in F. destruct F as [-> [-> [-> [-> ->]]]].
  set (L := Spec.effectiveLimit limit) in *.
  set (P := Spec.effectivePage page) in *.
  set (T := JS.ceilDiv (Z.of_nat (List.length items)) L) in *.
  split.
  - destruct (Z.ltb_spec P T); [| discriminate]. intro E. injection E as <-.
    split; [apply Hcur; lia |]. intro Hnil.
    specialize (Hlen (P + 1) ltac:(lia)). rewrite Hnil in Hlen. simpl in Hlen. nia.
  - destruct (Z.gtb_spec P 1); [| discriminate]. intros E Hin. injection E as <-.
    split; [apply Hcur; lia |]. rewrite Hlen by lia. nia.
Qed.

Lemma links_lead_to_items_witness :
  Items.items (Items.paginateItems Sample.mockItems (Some "2") (Some "2")) <> [].
Proof.
  apply (proj1 (links_lead_to_items Sample.mockItems (Some "1") (Some "2") 2)).
  reflexivity.
Defined.

(** ** Instances *)

Lemma pagination_links_witness :
  1 + 1 <=
  Items.totalPages
    (Items.pagination (Items.paginateItems Sample.mockItems (Some "1") (Some "2"))).
Proof.
  apply (proj1 (proj2 (proj2 (proj2 (proj2
           (pagination_links Sample.mockItems (Some "1") (Some "2"))))))).
  reflexivity.
Defined.

Lemma narrowing_steps_witness : In Sample.item2 Sample.mockItems.
Proof.
  apply (proj2 (proj2 (proj2
           (narrowing_steps Sample.mockItems
              (Items.mkQuery (Some "item 2") None None None None None)
              None None)))).
  left. reflexivity.
Defined.

Lemma grid_columns_fit_witness :
  280 <= ItemsPage.columnWidth (ItemsPage.gridConfig 700 "grid").
Proof.
  apply (proj1 (proj2 (proj2 (proj2 (proj2 (grid_columns_fit 700)))))).
  lia.
Defined.
